(** * whisper_jni: the JNI bridge between the application and the whisper engine

    A shallow embedding of [app/src/main/cpp/whisper_jni.cpp].  The bridge
    owns no state of its own: every entry point converts its arguments,
    calls the engine (or the C library, or the asset manager) and converts
    the result back.  The embedding therefore threads one [World] through
    every call; the world records the engine memory, the file system, the
    Java heap of float arrays, the assets currently open, and the sequence
    of external calls made so far. *)

From Stdlib Require Import ZArith QArith Lia List Bool String.
From Stdlib Require Import Strings.Byte.
From stdpp Require Import base gmap list.
Import ListNotations.

Local Open Scope Z_scope.

(* ===================================================================== *)
(** ** Bytes, C strings and machine integers *)
(* ===================================================================== *)

Definition byte_to_Z (b : byte) : Z := Z.of_N (Byte.to_N b).

Definition byte_of_Z (z : Z) : byte :=
  match Byte.of_N (Z.to_N (z mod 256)) with
  | Some b => b
  | None => x00
  end.

(** A [std::string] is a counted sequence of bytes. *)
Definition std_string : Type := list byte.

(** A string literal of the source, as the bytes it denotes. *)
Definition lit (s : string) : std_string := list_byte_of_string s.

Definition is_nul (b : byte) : bool := Byte.eqb b x00.

(** What a reader of a [const char *] sees of a byte sequence: the bytes
    before the first NUL.  [c_str] of a [std::string] that holds a NUL is
    read by every C interface only up to it. *)
Fixpoint c_str (s : std_string) : list byte :=
  match s with
  | [] => []
  | b :: rest => if is_nul b then [] else b :: c_str rest
  end.

(** Conversion of a [size_t] to [int] (two's complement, 32 bits). *)
Definition int_of_size_t (n : Z) : Z :=
  let m := n mod 4294967296 in
  if m <? 2147483648 then m else m - 4294967296.

(* ===================================================================== *)
(** ** The PCM reader: the data part of [read_wav] *)
(* ===================================================================== *)

(** The value of an [int16_t] whose two bytes were read from the file in
    this order.  Every Android ABI is little-endian, so the first byte is
    the low one. *)
Definition int16_of_bytes (lo hi : byte) : Z :=
  let u := byte_to_Z lo + 256 * byte_to_Z hi in
  if u <? 32768 then u else u - 65536.

(** [sample / 32768.0f].  The quotient of a 16-bit integer by a power of
    two is exactly representable in binary32, so the float is modelled by
    the rational it denotes. *)
Definition jfloat : Type := Q.

Definition normalise (sample : Z) : jfloat :=
  (inject_Z sample / inject_Z 32768)%Q.

(** [while (fread(&sample, sizeof(int16_t), 1, file) == 1) push_back(...)]
    over the bytes that remain after the file position.  [fread] returns 0
    as soon as fewer than two bytes remain. *)
Fixpoint fread_loop (remaining : list byte) : list jfloat :=
  match remaining with
  | lo :: hi :: rest => normalise (int16_of_bytes lo hi) :: fread_loop rest
  | _ => []
  end.

(** [fseek(file, 44, SEEK_SET)]: seeking past the end succeeds and leaves
    nothing to read. *)
Definition fseek_set (offset : nat) (content : list byte) : list byte :=
  skipn offset content.

Definition wav_header_size : nat := 44.

Definition pcm_of_file (content : list byte) : list jfloat :=
  fread_loop (fseek_set wav_header_size content).

(* ===================================================================== *)
(** ** Java strings and the two string conversions of the runtime *)
(* ===================================================================== *)

(** A Java string is a sequence of UTF-16 code units.  The bridge converts
    inbound strings with [String.getBytes("UTF-8")] and builds outbound
    strings with [NewStringUTF]; both belong to the Android runtime, not to
    this repository, and are modelled here by what they compute. *)
Definition jchar : Type := Z.
Definition java_string : Type := list jchar.

Definition is_high_surrogate (u : jchar) : bool := (0xD800 <=? u) && (u <=? 0xDBFF).
Definition is_low_surrogate (u : jchar) : bool := (0xDC00 <=? u) && (u <=? 0xDFFF).

(** Standard UTF-8 of one code point below 0x110000. *)
Definition utf8_of_code_point (c : Z) : list byte :=
  if c <? 0x80 then [byte_of_Z c]
  else if c <? 0x800 then
    [byte_of_Z (0xC0 + c / 64); byte_of_Z (0x80 + c mod 64)]
  else if c <? 0x10000 then
    [byte_of_Z (0xE0 + c / 4096); byte_of_Z (0x80 + (c / 64) mod 64);
     byte_of_Z (0x80 + c mod 64)]
  else
    [byte_of_Z (0xF0 + c / 262144); byte_of_Z (0x80 + (c / 4096) mod 64);
     byte_of_Z (0x80 + (c / 64) mod 64); byte_of_Z (0x80 + c mod 64)].

Definition code_point_of_pair (hi lo : jchar) : Z :=
  0x10000 + (hi - 0xD800) * 1024 + (lo - 0xDC00).

(** [String.getBytes("UTF-8")]: a surrogate pair is one supplementary code
    point (four bytes); a surrogate without its partner is replaced by
    ['?']; U+0000 is the single byte 0. *)
Fixpoint getBytes_UTF8 (s : java_string) : list byte :=
  match s with
  | [] => []
  | u :: rest =>
      if is_high_surrogate u then
        match rest with
        | v :: rest' =>
            if is_low_surrogate v
            then utf8_of_code_point (code_point_of_pair u v) ++ getBytes_UTF8 rest'
            else byte_of_Z 0x3F :: getBytes_UTF8 rest
        | [] => [byte_of_Z 0x3F]
        end
      else if is_low_surrogate u then byte_of_Z 0x3F :: getBytes_UTF8 rest
      else utf8_of_code_point u ++ getBytes_UTF8 rest
  end.

(** The decoder behind [NewStringUTF] on Android, over the bytes of a C
    string (so without NUL).  It reads the one-, two- and three-byte forms
    of Modified UTF-8 and also the four-byte form of standard UTF-8, which
    it turns into a surrogate pair.  It does not validate: continuation
    bytes are masked, and a sequence cut short by the end of the string
    ends the result. *)
Fixpoint decode_utf (bs : list byte) : java_string :=
  match bs with
  | [] => []
  | b1 :: r1 =>
      let one := byte_to_Z b1 in
      if one <? 0x80 then one :: decode_utf r1
      else
        match r1 with
        | [] => []
        | b2 :: r2 =>
            let two := byte_to_Z b2 in
            if (one / 32) mod 2 =? 0 then
              ((one mod 32) * 64 + two mod 64) :: decode_utf r2
            else
              match r2 with
              | [] => []
              | b3 :: r3 =>
                  let three := byte_to_Z b3 in
                  if (one / 16) mod 2 =? 0 then
                    ((one mod 16) * 4096 + (two mod 64) * 64 + three mod 64)
                      :: decode_utf r3
                  else
                    match r3 with
                    | [] => []
                    | b4 :: r4 =>
                        let four := byte_to_Z b4 in
                        let cp := (one mod 16) * 262144 + (two mod 64) * 4096
                                  + (three mod 64) * 64 + four mod 64 in
                        ((cp / 1024 + 0xD7C0) mod 65536)
                          :: (cp mod 1024 + 0xDC00)
                          :: decode_utf r4
                    end
              end
        end
  end.

(** [env->NewStringUTF(p)]: the Java string decoded from the C string at
    [p], that is, from the bytes before the first NUL. *)
Definition NewStringUTF (p : list byte) : java_string := decode_utf (c_str p).

(* ===================================================================== *)
(** ** The external collaborators *)
(* ===================================================================== *)

Inductive whisper_sampling_strategy : Type :=
| WHISPER_SAMPLING_GREEDY
| WHISPER_SAMPLING_BEAM_SEARCH.

(** [whisper_full_params]: the fields the bridge assigns, and the rest of
    the struct ([whisper.h] is not part of the repository) as one field. *)
Record whisper_full_params (Rest : Type) : Type := mk_full_params {
  print_progress : bool;
  print_special : bool;
  print_realtime : bool;
  print_timestamps : bool;
  translate : bool;
  language : option (list byte);
  n_threads : Z;
  offset_ms : Z;
  duration_ms : Z;
  single_segment : bool;
  max_tokens : Z;
  audio_ctx : Z;
  other_fields : Rest
}.

Arguments mk_full_params {Rest}.
Arguments print_progress {Rest}.
Arguments print_special {Rest}.
Arguments print_realtime {Rest}.
Arguments print_timestamps {Rest}.
Arguments translate {Rest}.
Arguments language {Rest}.
Arguments n_threads {Rest}.
Arguments offset_ms {Rest}.
Arguments duration_ms {Rest}.
Arguments single_segment {Rest}.
Arguments max_tokens {Rest}.
Arguments audio_ctx {Rest}.
Arguments other_fields {Rest}.

(** The C API of the engine.  A context pointer is an integer, 0 for
    [nullptr]; a [const char *] result is [None] for [nullptr].  The
    sample buffer is [const float *]: the engine receives its contents.
    The functions that take a context are total here: they describe the
    engine on the pointers it accepts.  What the real engine does with a
    released pointer, or with one it never returned, is undefined, and
    nothing below is meant for such a pointer.  The two constructors of
    default parameters return a struct by value and touch no context;
    they are values of the class and are not recorded as calls. *)
Class WhisperEngine : Type := {
  engine_memory : Type;
  whisper_context_params : Type;
  full_params_rest : Type;
  whisper_context_default_params : whisper_context_params;
  whisper_full_default_params :
    whisper_sampling_strategy -> whisper_full_params full_params_rest;
  whisper_init_from_file_with_params :
    list byte -> whisper_context_params -> engine_memory -> Z * engine_memory;
  whisper_init_from_buffer_with_params :
    list byte -> Z -> whisper_context_params -> engine_memory -> Z * engine_memory;
  whisper_free : Z -> engine_memory -> engine_memory;
  whisper_full :
    Z -> whisper_full_params full_params_rest -> list jfloat -> Z ->
    engine_memory -> Z * engine_memory;
  whisper_full_n_segments : Z -> engine_memory -> Z;
  whisper_full_get_segment_text : Z -> Z -> engine_memory -> option (list byte)
}.

Inductive asset_mode : Type := AASSET_MODE_BUFFER.

(** The Android runtime: the asset manager, and [String.getBytes] for the
    charsets other than UTF-8. *)
Class AndroidRuntime : Type := {
  getBytes_other : java_string -> java_string -> list byte;
  AAssetManager_fromJava : Z -> Z;
  AAssetManager_open : Z -> list byte -> asset_mode -> Z;
  AAsset_getLength : Z -> Z;
  AAsset_getBuffer : Z -> option (list byte)
}.

Inductive android_LogPriority : Type := ANDROID_LOG_INFO | ANDROID_LOG_ERROR.

Inductive log_arg : Type :=
| ArgStr (s : list byte)
| ArgInt (n : Z).

Inductive release_mode : Type := JNI_COPY_AND_FREE | JNI_COMMIT | JNI_ABORT.

Section Bridge.

Context {engine : WhisperEngine} {runtime : AndroidRuntime}.

Abbreviation full_params := (whisper_full_params full_params_rest).

(** One external call made by the bridge. *)
Inductive Event : Type :=
| EvLog (prio : android_LogPriority) (fmt : string) (args : list log_arg)
| EvFopen (path : list byte) (opened : bool)
| EvFclose (path : list byte)
| EvAssetManagerFromJava (assetManager : Z)
| EvAssetOpen (mgr : Z) (path : list byte) (mode : asset_mode)
| EvAssetGetLength (asset : Z)
| EvAssetGetBuffer (asset : Z)
| EvAssetClose (asset : Z)
| EvGetFloatArrayElements (array : Z)
| EvGetArrayLength (array : Z)
| EvReleaseFloatArrayElements (array : Z) (mode : release_mode)
| EvInitFromFile (path : list byte)
| EvInitFromBuffer (data : list byte) (size : Z)
| EvFree (ctx : Z)
| EvFull (ctx : Z) (params : full_params) (samples : list jfloat) (n_samples : Z)
| EvNSegments (ctx : Z)
| EvGetSegmentText (ctx : Z) (i_segment : Z).

Record World : Type := mk_world {
  engine_mem : engine_memory;
  files : list byte -> option (list byte);
  jheap : gmap Z (list jfloat);
  open_assets : list Z;
  trace : list Event
}.

Definition set_engine_mem (m : engine_memory) (w : World) : World :=
  mk_world m (files w) (jheap w) (open_assets w) (trace w).
Definition set_jheap (h : gmap Z (list jfloat)) (w : World) : World :=
  mk_world (engine_mem w) (files w) h (open_assets w) (trace w).
Definition set_open_assets (a : list Z) (w : World) : World :=
  mk_world (engine_mem w) (files w) (jheap w) a (trace w).
Definition record (e : Event) (w : World) : World :=
  mk_world (engine_mem w) (files w) (jheap w) (open_assets w) (trace w ++ [e]).

(** Computations of the bridge: a state monad over the world, with [None]
    for a call that does not return (undefined behaviour of C++). *)
Definition M (A : Type) : Type := World -> option A * World.

Definition ret {A} (a : A) : M A := fun w => (Some a, w).
Definition fault {A} : M A := fun w => (None, w).
Definition bind {A B} (m : M A) (k : A -> M B) : M B :=
  fun w => match m w with
           | (Some a, w') => k a w'
           | (None, w') => (None, w')
           end.
Definition emit (e : Event) : M unit := fun w => (Some tt, record e w).

Notation "'let*' x ':=' m 'in' k" := (bind m (fun x => k))
  (at level 10, x name, m at level 100, k at level 200, only parsing).
Notation "m >> k" := (bind m (fun _ => k))
  (at level 90, right associativity, only parsing).

Definition LOGI (fmt : string) (args : list log_arg) : M unit :=
  emit (EvLog ANDROID_LOG_INFO fmt args).
Definition LOGE (fmt : string) (args : list log_arg) : M unit :=
  emit (EvLog ANDROID_LOG_ERROR fmt args).

(** *** Calls into the engine *)

Definition call_init_from_file (path : list byte) : M Z :=
  fun w =>
    let '(ctx, m) := whisper_init_from_file_with_params
                       path whisper_context_default_params (engine_mem w) in
    (Some ctx, record (EvInitFromFile path) (set_engine_mem m w)).

Definition call_init_from_buffer (data : list byte) (size : Z) : M Z :=
  fun w =>
    let '(ctx, m) := whisper_init_from_buffer_with_params
                       data size whisper_context_default_params (engine_mem w) in
    (Some ctx, record (EvInitFromBuffer data size) (set_engine_mem m w)).

Definition call_free (ctx : Z) : M unit :=
  fun w => (Some tt, record (EvFree ctx) (set_engine_mem (whisper_free ctx (engine_mem w)) w)).

Definition call_full (ctx : Z) (p : full_params) (samples : list jfloat) (n : Z) : M Z :=
  fun w =>
    let '(status, m) := whisper_full ctx p samples n (engine_mem w) in
    (Some status, record (EvFull ctx p samples n) (set_engine_mem m w)).

Definition call_n_segments (ctx : Z) : M Z :=
  fun w => (Some (whisper_full_n_segments ctx (engine_mem w)), record (EvNSegments ctx) w).

Definition call_get_segment_text (ctx i : Z) : M (option (list byte)) :=
  fun w => (Some (whisper_full_get_segment_text ctx i (engine_mem w)),
            record (EvGetSegmentText ctx i) w).

(** *** Calls into the C library *)

Definition fopen_rb (path : list byte) : M (option (list byte)) :=
  fun w => (Some (files w path), record (EvFopen path (bool_decide (is_Some (files w path)))) w).

Definition fclose (path : list byte) : M unit := emit (EvFclose path).

(** *** Calls into the asset manager *)

Definition call_AAssetManager_fromJava (assetManager : Z) : M Z :=
  emit (EvAssetManagerFromJava assetManager) >> ret (AAssetManager_fromJava assetManager).

Definition call_AAssetManager_open (mgr : Z) (path : list byte) (mode : asset_mode) : M Z :=
  fun w =>
    let asset := AAssetManager_open mgr path mode in
    (Some asset,
     record (EvAssetOpen mgr path mode)
       (if asset =? 0 then w else set_open_assets (asset :: open_assets w) w)).

Definition call_AAsset_getLength (asset : Z) : M Z :=
  emit (EvAssetGetLength asset) >> ret (AAsset_getLength asset).

Definition call_AAsset_getBuffer (asset : Z) : M (option (list byte)) :=
  emit (EvAssetGetBuffer asset) >> ret (AAsset_getBuffer asset).

Fixpoint remove_first (a : Z) (l : list Z) : list Z :=
  match l with
  | [] => []
  | x :: rest => if x =? a then rest else x :: remove_first a rest
  end.

Definition call_AAsset_close (asset : Z) : M unit :=
  fun w => (Some tt, record (EvAssetClose asset)
                       (set_open_assets (remove_first asset (open_assets w)) w)).

(** *** JNI access to a Java float array *)

(** The native view of the array; a reference that is not a live array
    does not return. *)
Definition GetFloatArrayElements (array : Z) : M (list jfloat) :=
  fun w => match jheap w !! array with
           | Some elems => (Some elems, record (EvGetFloatArrayElements array) w)
           | None => (None, w)
           end.

Definition GetArrayLength (array : Z) : M Z :=
  fun w => match jheap w !! array with
           | Some elems => (Some (Z.of_nat (length elems)), record (EvGetArrayLength array) w)
           | None => (None, w)
           end.

(** Releasing the native view: [JNI_ABORT] frees it without copying back,
    the other two modes write its contents into the array. *)
Definition ReleaseFloatArrayElements (array : Z) (elems : list jfloat) (mode : release_mode)
  : M unit :=
  fun w =>
    (Some tt,
     record (EvReleaseFloatArrayElements array mode)
       match mode with
       | JNI_ABORT => w
       | JNI_COPY_AND_FREE | JNI_COMMIT => set_jheap (<[array := elems]> (jheap w)) w
       end).

(* ===================================================================== *)
(** ** The bridge *)
(* ===================================================================== *)

Fixpoint java_string_eqb (a b : java_string) : bool :=
  match a, b with
  | [], [] => true
  | x :: a', y :: b' => (x =? y) && java_string_eqb a' b'
  | _, _ => false
  end.

(** [jStr.getBytes(charsetName)] *)
Definition String_getBytes (charsetName s : java_string) : list byte :=
  if java_string_eqb charsetName (map byte_to_Z (lit "UTF-8"))
  then getBytes_UTF8 s
  else getBytes_other charsetName s.

(** [jstring2string]: the bytes of [jStr.getBytes("UTF-8")], all of them
    ([std::string(pBytes, length)]); the empty string for a null
    reference.  The array of bytes is released with [JNI_ABORT] and the
    local references are deleted: nothing of the world changes. *)
Definition jstring2string (jStr : option java_string) : std_string :=
  match jStr with
  | None => []
  | Some s => String_getBytes (NewStringUTF (lit "UTF-8")) s
  end.

Definition read_wav (fname : std_string) : M (list jfloat) :=
  let* file := fopen_rb (c_str fname) in
  match file with
  | None =>
      LOGE "Failed to open audio file: %s" [ArgStr (c_str fname)] >>
      ret []
  | Some content =>
      let pcmf32 := fread_loop (fseek_set 44 content) in
      fclose (c_str fname) >>
      LOGI "Read %zu samples from %s"
        [ArgInt (Z.of_nat (length pcmf32)); ArgStr (c_str fname)] >>
      ret pcmf32
  end.

Definition Java_com_memexos_app_whisper_WhisperService_initContext (modelPath : option java_string) : M Z :=
  let model_path := jstring2string modelPath in
  LOGI "Initializing Whisper context with model: %s" [ArgStr (c_str model_path)] >>
  let* ctx := call_init_from_file (c_str model_path) in
  if ctx =? 0 then
    LOGE "Failed to load model from: %s" [ArgStr (c_str model_path)] >>
    ret 0
  else
    LOGI "Whisper context initialized successfully" [] >>
    ret ctx.

Definition Java_com_memexos_app_whisper_WhisperService_initContextFromAsset (assetManager : Z) (assetPath : option java_string) : M Z :=
  let asset_path := jstring2string assetPath in
  LOGI "Initializing Whisper context from asset: %s" [ArgStr (c_str asset_path)] >>
  let* mgr := call_AAssetManager_fromJava assetManager in
  if mgr =? 0 then
    LOGE "Failed to get native asset manager" [] >>
    ret 0
  else
    let* asset := call_AAssetManager_open mgr (c_str asset_path) AASSET_MODE_BUFFER in
    if asset =? 0 then
      LOGE "Failed to open asset: %s" [ArgStr (c_str asset_path)] >>
      ret 0
    else
      let* asset_size := call_AAsset_getLength asset in
      let* asset_data := call_AAsset_getBuffer asset in
      match asset_data with
      | None =>
          LOGE "Failed to read asset data: %s" [ArgStr (c_str asset_path)] >>
          call_AAsset_close asset >>
          ret 0
      | Some data =>
          if asset_size <=? 0 then
            LOGE "Failed to read asset data: %s" [ArgStr (c_str asset_path)] >>
            call_AAsset_close asset >>
            ret 0
          else
            LOGI "Asset loaded successfully: %s (size: %ld bytes)"
              [ArgStr (c_str asset_path); ArgInt asset_size] >>
            let* ctx := call_init_from_buffer data asset_size in
            call_AAsset_close asset >>
            if ctx =? 0 then
              LOGE "Failed to initialize Whisper context from asset: %s"
                [ArgStr (c_str asset_path)] >>
              ret 0
            else
              LOGI "Whisper context initialized successfully from asset" [] >>
              ret ctx
      end.

Definition Java_com_memexos_app_whisper_WhisperService_freeContext (contextPtr : Z) : M unit :=
  if negb (contextPtr =? 0) then
    call_free contextPtr >>
    LOGI "Whisper context freed" []
  else ret tt.

(** The parameter struct of the primary entry point. *)
Definition fullTranscribe_wparams (numThreads : Z) : full_params :=
  let wparams := whisper_full_default_params WHISPER_SAMPLING_GREEDY in
  {| print_progress := false;
     print_special := false;
     print_realtime := false;
     print_timestamps := false;
     translate := false;
     language := Some (lit "en");
     n_threads := numThreads;
     offset_ms := 0;
     duration_ms := 0;
     single_segment := false;
     max_tokens := 0;
     audio_ctx := 0;
     other_fields := other_fields wparams |}.

Definition Java_com_memexos_app_whisper_WhisperService_fullTranscribe (contextPtr numThreads audioData : Z) : M unit :=
  if contextPtr =? 0 then
    LOGE "Invalid context pointer" []
  else
    let ctx := contextPtr in
    let* audio := GetFloatArrayElements audioData in
    let* audioLength := GetArrayLength audioData in
    LOGI "Processing %d audio samples with %d threads"
      [ArgInt audioLength; ArgInt numThreads] >>
    let wparams := fullTranscribe_wparams numThreads in
    let* result := call_full ctx wparams audio audioLength in
    ReleaseFloatArrayElements audioData audio JNI_ABORT >>
    if negb (result =? 0) then
      LOGE "Failed to process audio, error code: %d" [ArgInt result]
    else
      LOGI "Audio processing completed successfully" [].

Definition Java_com_memexos_app_whisper_WhisperService_getTextSegmentCount (contextPtr : Z) : M Z :=
  if contextPtr =? 0 then
    LOGE "Invalid context pointer" [] >>
    ret 0
  else
    call_n_segments contextPtr.

Definition Java_com_memexos_app_whisper_WhisperService_getTextSegment (contextPtr index : Z) : M java_string :=
  if contextPtr =? 0 then
    LOGE "Invalid context pointer" [] >>
    ret (NewStringUTF (lit ""))
  else
    let* text := call_get_segment_text contextPtr index in
    ret (NewStringUTF (match text with Some t => t | None => lit "" end)).

(** The parameter struct of the legacy entry point. *)
Definition nativeTranscribe_wparams : full_params :=
  let wparams := whisper_full_default_params WHISPER_SAMPLING_GREEDY in
  {| print_progress := false;
     print_special := false;
     print_realtime := false;
     print_timestamps := false;
     translate := false;
     language := Some (lit "en");
     n_threads := 4;
     offset_ms := 0;
     duration_ms := 0;
     single_segment := false;
     max_tokens := 0;
     audio_ctx := 0;
     other_fields := other_fields wparams |}.

(** [for (int i = ...; i < n_segments; ++i) { result << text; if (i <
    n_segments - 1) result << " "; }], with [todo] iterations left.
    Inserting a null [const char *] into a stream is undefined. *)
Fixpoint segment_loop (ctx n_segments i : Z) (todo : nat) (result : std_string)
  : M std_string :=
  match todo with
  | O => ret result
  | S todo' =>
      let* text := call_get_segment_text ctx i in
      match text with
      | None => fault
      | Some t =>
          let result := result ++ c_str t in
          let result := if i <? n_segments - 1 then result ++ lit " " else result in
          segment_loop ctx n_segments (i + 1) todo' result
      end
  end.

Definition Java_com_example_memexos_WhisperWrapper_nativeTranscribe (audioPath modelPath : option java_string) : M java_string :=
  let audio_path := jstring2string audioPath in
  let model_path := jstring2string modelPath in
  LOGI "Starting transcription - Audio: %s, Model: %s"
    [ArgStr (c_str audio_path); ArgStr (c_str model_path)] >>
  let* ctx := call_init_from_file (c_str model_path) in
  if ctx =? 0 then
    LOGE "Failed to load model from: %s" [ArgStr (c_str model_path)] >>
    ret (NewStringUTF (lit "Error: Failed to load model"))
  else
    let* pcmf32 := read_wav audio_path in
    match pcmf32 with
    | [] =>
        call_free ctx >>
        ret (NewStringUTF (lit "Error: Failed to read audio file"))
    | _ :: _ =>
        let wparams := nativeTranscribe_wparams in
        LOGI "Processing %zu samples..." [ArgInt (Z.of_nat (length pcmf32))] >>
        let* status := call_full ctx wparams pcmf32
                         (int_of_size_t (Z.of_nat (length pcmf32))) in
        if negb (status =? 0) then
          LOGE "Failed to process audio" [] >>
          call_free ctx >>
          ret (NewStringUTF (lit "Error: Failed to process audio"))
        else
          let* n_segments := call_n_segments ctx in
          LOGI "Found %d segments" [ArgInt n_segments] >>
          let* transcription := segment_loop ctx n_segments 0 (Z.to_nat n_segments) [] in
          call_free ctx >>
          LOGI "Transcription complete: %s" [ArgStr (c_str transcription)] >>
          ret (NewStringUTF transcription)
    end.

Definition Java_com_example_memexos_WhisperWrapper_nativeInit : M unit := LOGI "WhisperJNI initialized (legacy)" [].
Definition Java_com_example_memexos_WhisperWrapper_nativeCleanup : M unit := LOGI "WhisperJNI cleanup (legacy)" [].

(** *** Observations on the sequence of external calls *)

(** The world once the calls [evs] have been made after those of [w]. *)
Definition extend (evs : list Event) (w : World) : World :=
  mk_world (engine_mem w) (files w) (jheap w) (open_assets w) (trace w ++ evs).

(** The world a computation leaves behind. *)
Definition after {A} (m : M A) (w : World) : World := snd (m w).

(** The samples [read_wav] finds under a name. *)
Definition audio_of (w : World) (fname : std_string) : list jfloat :=
  match files w (c_str fname) with
  | Some content => pcm_of_file content
  | None => []
  end.

Definition is_engine_call (e : Event) : bool :=
  match e with
  | EvInitFromFile _ | EvInitFromBuffer _ _ | EvFree _ | EvFull _ _ _ _
  | EvNSegments _ | EvGetSegmentText _ _ => true
  | _ => false
  end.

Definition is_array_access (e : Event) : bool :=
  match e with
  | EvGetFloatArrayElements _ | EvGetArrayLength _
  | EvReleaseFloatArrayElements _ _ => true
  | _ => false
  end.

Definition is_free (e : Event) : bool :=
  match e with EvFree _ => true | _ => false end.

Definition is_fopen (e : Event) : bool :=
  match e with EvFopen _ _ => true | _ => false end.

Definition is_full (e : Event) : bool :=
  match e with EvFull _ _ _ _ => true | _ => false end.

Definition is_asset_close (e : Event) : bool :=
  match e with EvAssetClose _ => true | _ => false end.

Definition engine_calls (t : list Event) : list Event := List.filter is_engine_call t.
Definition array_accesses (t : list Event) : list Event := List.filter is_array_access t.
Definition free_calls (t : list Event) : list Event := List.filter is_free t.
Definition fopen_calls (t : list Event) : list Event := List.filter is_fopen t.
Definition full_calls (t : list Event) : list Event := List.filter is_full t.
Definition asset_closes (t : list Event) : list Event := List.filter is_asset_close t.

(** The calls [read_wav] makes for a name. *)
Definition read_events (w : World) (fname : std_string) : list Event :=
  match files w (c_str fname) with
  | Some content =>
      [EvFopen (c_str fname) true;
       EvFclose (c_str fname);
       EvLog ANDROID_LOG_INFO "Read %zu samples from %s"
         [ArgInt (Z.of_nat (length (pcm_of_file content))); ArgStr (c_str fname)]]
  | None =>
      [EvFopen (c_str fname) false;
       EvLog ANDROID_LOG_ERROR "Failed to open audio file: %s" [ArgStr (c_str fname)]]
  end.

(** The calls with which the legacy entry point begins: its first log
    line and the model load. *)
Definition load_events (audio_path model_path : std_string) : list Event :=
  [EvLog ANDROID_LOG_INFO "Starting transcription - Audio: %s, Model: %s"
     [ArgStr (c_str audio_path); ArgStr (c_str model_path)];
   EvInitFromFile (c_str model_path)].

(** The calls around the engine's transcription in the legacy entry
    point. *)
Definition full_events (ctx : Z) (pcmf32 : list jfloat) : list Event :=
  [EvLog ANDROID_LOG_INFO "Processing %zu samples..." [ArgInt (Z.of_nat (length pcmf32))];
   EvFull ctx nativeTranscribe_wparams pcmf32 (int_of_size_t (Z.of_nat (length pcmf32)))].

(** The three error strings of the legacy entry point. *)
Definition model_error : java_string := NewStringUTF (lit "Error: Failed to load model").
Definition audio_error : java_string := NewStringUTF (lit "Error: Failed to read audio file").
Definition processing_error : java_string := NewStringUTF (lit "Error: Failed to process audio").

End Bridge.

(** Short names for the entry points. *)
Abbreviation initContext := Java_com_memexos_app_whisper_WhisperService_initContext.
Abbreviation initContextFromAsset :=
  Java_com_memexos_app_whisper_WhisperService_initContextFromAsset.
Abbreviation freeContext := Java_com_memexos_app_whisper_WhisperService_freeContext.
Abbreviation fullTranscribe := Java_com_memexos_app_whisper_WhisperService_fullTranscribe.
Abbreviation getTextSegmentCount :=
  Java_com_memexos_app_whisper_WhisperService_getTextSegmentCount.
Abbreviation getTextSegment := Java_com_memexos_app_whisper_WhisperService_getTextSegment.
Abbreviation nativeTranscribe := Java_com_example_memexos_WhisperWrapper_nativeTranscribe.
Abbreviation nativeInit := Java_com_example_memexos_WhisperWrapper_nativeInit.
Abbreviation nativeCleanup := Java_com_example_memexos_WhisperWrapper_nativeCleanup.

(** Segment texts joined with one space between consecutive segments: the
    transcript as the specification words it. *)
Fixpoint join_with_space (texts : list std_string) : std_string :=
  match texts with
  | [] => []
  | t :: rest =>
      match rest with
      | [] => t
      | _ :: _ => t ++ lit " " ++ join_with_space rest
      end
  end.

(** A Java string that standard UTF-8 can carry: every code unit is 16
    bits wide and every surrogate is half of a pair. *)
Fixpoint well_formed_utf16 (s : java_string) : bool :=
  match s with
  | [] => true
  | u :: rest =>
      (0 <=? u) && (u <? 65536) &&
      if is_high_surrogate u then
        match rest with
        | v :: rest' => is_low_surrogate v && well_formed_utf16 rest'
        | [] => false
        end
      else negb (is_low_surrogate u) && well_formed_utf16 rest
  end.

Definition has_nul_char (s : java_string) : bool := existsb (Z.eqb 0) s.

(* ===================================================================== *)
(** ** A concrete engine and runtime, to run the bridge on *)
(* ===================================================================== *)

Module Demo.

Fixpoint bytes_eqb (a b : list byte) : bool :=
  match a, b with
  | [], [] => true
  | x :: a', y :: b' => Byte.eqb x y && bytes_eqb a' b'
  | _, _ => false
  end.

(** The result area of one context: the number of segments of the last
    transcription, and the storage the texts are written to.  A shorter
    transcription overwrites a prefix of the storage and leaves the texts
    of the previous one behind it, as a C array with a count does. *)
Record results : Type := mk_results {
  n_results : Z;
  storage : list (list byte)
}.

Definition memory : Type := list (Z * results).

Fixpoint find_ctx (ctx : Z) (m : memory) : option results :=
  match m with
  | [] => None
  | (c, r) :: rest => if c =? ctx then Some r else find_ctx ctx rest
  end.

Fixpoint update_ctx (ctx : Z) (r : results) (m : memory) : memory :=
  match m with
  | [] => []
  | (c, r0) :: rest =>
      if c =? ctx then (c, r) :: rest else (c, r0) :: update_ctx ctx r rest
  end.

Fixpoint drop_ctx (ctx : Z) (m : memory) : memory :=
  match m with
  | [] => []
  | (c, r0) :: rest => if c =? ctx then rest else (c, r0) :: drop_ctx ctx rest
  end.

Definition fresh_ctx (m : memory) : Z := 4096 + 16 * Z.of_nat (length m).

Definition init_from_file (path : list byte) (_ : unit) (m : memory) : Z * memory :=
  if bytes_eqb path (lit "/data/ggml-tiny.bin")
  then (fresh_ctx m, (fresh_ctx m, mk_results 0 []) :: m)
  else (0, m).

Definition init_from_buffer (data : list byte) (size : Z) (_ : unit) (m : memory)
  : Z * memory :=
  if (0 <? size) && bytes_eqb (firstn 4 data) (lit "ggml")
  then (fresh_ctx m, (fresh_ctx m, mk_results 0 []) :: m)
  else (0, m).

(** What the toy model hears: nothing in one sample, one word in two
    samples, two words in more. *)
Definition recognise (n_samples : Z) : option (list (list byte)) :=
  if n_samples <=? 1 then None
  else if n_samples =? 2 then Some [lit "hi"]
  else Some [lit " hello"; lit " world"].

Definition full (ctx : Z) (_ : whisper_full_params unit) (samples : list jfloat)
  (n_samples : Z) (m : memory) : Z * memory :=
  match find_ctx ctx m, recognise n_samples with
  | Some r, Some texts =>
      (0, update_ctx ctx
            (mk_results (Z.of_nat (length texts))
               (texts ++ skipn (length texts) (storage r))) m)
  | _, _ => (-1, m)
  end.

Definition n_segments (ctx : Z) (m : memory) : Z :=
  match find_ctx ctx m with
  | Some r => n_results r
  | None => 0
  end.

Definition get_segment_text (ctx i : Z) (m : memory) : option (list byte) :=
  match find_ctx ctx m with
  | Some r => if i <? 0 then None else nth_error (storage r) (Z.to_nat i)
  | None => None
  end.

Definition default_params (_ : whisper_sampling_strategy) : whisper_full_params unit :=
  {| print_progress := true;
     print_special := false;
     print_realtime := false;
     print_timestamps := true;
     translate := false;
     language := Some (lit "en");
     n_threads := 4;
     offset_ms := 0;
     duration_ms := 0;
     single_segment := false;
     max_tokens := 0;
     audio_ctx := 0;
     other_fields := tt |}.

#[export] Instance engine : WhisperEngine := {|
  engine_memory := memory;
  whisper_context_params := unit;
  full_params_rest := unit;
  whisper_context_default_params := tt;
  whisper_full_default_params := default_params;
  whisper_init_from_file_with_params := init_from_file;
  whisper_init_from_buffer_with_params := init_from_buffer;
  whisper_free := drop_ctx;
  whisper_full := full;
  whisper_full_n_segments := n_segments;
  whisper_full_get_segment_text := get_segment_text
|}.

(** The runtime: one asset manager (Java reference 7, native pointer 100)
    with a model asset, an empty asset and an asset without a buffer; the
    charsets other than UTF-8 keep the low byte of each code unit. *)
Definition asset_of_path (path : list byte) : Z :=
  if bytes_eqb path (lit "models/ggml-tiny.bin") then 200
  else if bytes_eqb path (lit "models/empty.bin") then 201
  else if bytes_eqb path (lit "models/unmapped.bin") then 202
  else 0.

#[export] Instance runtime : AndroidRuntime := {|
  getBytes_other := fun _ s => map byte_of_Z s;
  AAssetManager_fromJava := fun am => if am =? 7 then 100 else 0;
  AAssetManager_open := fun mgr path _ => if mgr =? 100 then asset_of_path path else 0;
  AAsset_getLength := fun a => if a =? 200 then 8 else if a =? 202 then 8 else 0;
  AAsset_getBuffer := fun a =>
    if a =? 200 then Some (lit "ggmlABCD")
    else if a =? 201 then Some []
    else None
|}.

(** A file system with one audio file: a 44-byte header, three samples
    (1, -32768, 32767) and a trailing odd byte. *)
Definition header : list byte := repeat x52 44.

Definition speech_wav : list byte :=
  header ++ [x01; x00; x00; x80; xff; x7f; x2a].

Definition short_wav : list byte := repeat x52 43.

(** A header and one sample: too little for the toy model. *)
Definition click_wav : list byte := header ++ [x10; x00].

Definition disk (path : list byte) : option (list byte) :=
  if bytes_eqb path (lit "/sdcard/speech.wav") then Some speech_wav
  else if bytes_eqb path (lit "/sdcard/short.wav") then Some short_wav
  else if bytes_eqb path (lit "/sdcard/click.wav") then Some click_wav
  else None.

Definition java (s : string) : option java_string := Some (map byte_to_Z (lit s)).

(** The initial world: an empty engine, the disk above, two Java float
    arrays (references 50 and 51) and nothing open. *)
Definition samples0 : list jfloat := [1 # 2; -1 # 4; 0]%Q.
Definition samples1 : list jfloat := [1 # 8; 0]%Q.

Definition world0 : World :=
  mk_world ([] : memory) disk (<[ 51 := samples1 ]> {[ 50 := samples0 ]}) [] [].

(** The world after loading the model (the context is at 4096), after a
    transcription of the three samples of array 50, and after a second
    transcription, of the two samples of array 51. *)
Definition world1 : World := after (initContext (java "/data/ggml-tiny.bin")) world0.
Definition world2 : World := after (fullTranscribe 4096 4 50) world1.
Definition world3 : World := after (fullTranscribe 4096 4 51) world2.

End Demo.

(** C2 in the words of the specification: the empty string for the zero
    handle, for a null text and for an index outside the segments of the
    last transcription, the segment's text otherwise. *)
Definition getTextSegment_spec {engine : WhisperEngine} (w : World) (contextPtr index : Z)
  : java_string :=
  let in_range :=
    (0 <=? index) && (index <? whisper_full_n_segments contextPtr (engine_mem w)) in
  if (contextPtr =? 0) || negb in_range then []
  else match whisper_full_get_segment_text contextPtr index (engine_mem w) with
       | None => []
       | Some text => NewStringUTF text
       end.

(* ===================================================================== *)
(** ** Further observations *)
(* ===================================================================== *)

Section Observations.

Context {engine : WhisperEngine}.

Definition is_fclose (e : Event) : bool :=
  match e with EvFclose _ => true | _ => false end.

Definition is_text_query (e : Event) : bool :=
  match e with EvGetSegmentText _ _ => true | _ => false end.

Definition fclose_calls (t : list Event) : list Event := List.filter is_fclose t.
Definition text_queries (t : list Event) : list Event := List.filter is_text_query t.

(** What a call of the bridge may change of the world: the engine memory,
    and the trace, by calls added at its end.  The file system, the Java
    heap and the set of open assets are as before. *)
Definition bridge_frame (w w' : World) : Prop :=
  files w' = files w
  /\ jheap w' = jheap w
  /\ open_assets w' = open_assets w
  /\ exists evs : list Event, trace w' = trace w ++ evs.

End Observations.

(** An engine that hears nothing: it loads the same model as the one
    above and every transcription succeeds with no segment. *)
Module Silence.

Definition full (ctx : Z) (_ : whisper_full_params unit) (samples : list jfloat)
  (n_samples : Z) (m : Demo.memory) : Z * Demo.memory := (0, m).

Definition engine : WhisperEngine := {|
  engine_memory := Demo.memory;
  whisper_context_params := unit;
  full_params_rest := unit;
  whisper_context_default_params := tt;
  whisper_full_default_params := Demo.default_params;
  whisper_init_from_file_with_params := Demo.init_from_file;
  whisper_init_from_buffer_with_params := Demo.init_from_buffer;
  whisper_free := Demo.drop_ctx;
  whisper_full := full;
  whisper_full_n_segments := Demo.n_segments;
  whisper_full_get_segment_text := Demo.get_segment_text
|}.

Definition world0 : @World engine :=
  @mk_world engine ([] : Demo.memory) Demo.disk ∅ [] [].

End Silence.

(** The two bytes a little-endian machine stores for a 16-bit integer:
    what a writer of the PCM data puts in the file for one sample. *)
Definition int16_to_bytes (sample : Z) : list byte :=
  [byte_of_Z sample; byte_of_Z (sample / 256)].

(* ===================================================================== *)
(** ** Bytes and 16-bit samples *)
(* ===================================================================== *)

Lemma byte_to_Z_range (b : byte) : 0 <= byte_to_Z b <= 255.
Proof.
  unfold byte_to_Z. pose proof (Byte.to_N_bounded b) as Hb.
  split; [apply N2Z.is_nonneg | ]. change 255 with (Z.of_N 255). lia.
Qed.

Lemma byte_to_of_Z (z : Z) : byte_to_Z (byte_of_Z z) = z mod 256.
Proof.
  unfold byte_to_Z, byte_of_Z.
  assert (Hr : 0 <= z mod 256 < 256) by (apply Z.mod_pos_bound; lia).
  destruct (Byte.of_N (Z.to_N (z mod 256))) as [b|] eqn:E.
  - apply Byte.to_of_N in E. rewrite E. rewrite Z2N.id; lia.
  - apply Byte.of_N_None_iff in E. lia.
Qed.

Lemma byte_of_to_Z (b : byte) : byte_of_Z (byte_to_Z b) = b.
Proof.
  pose proof (byte_to_Z_range b) as Hr.
  unfold byte_of_Z. rewrite Z.mod_small by lia.
  unfold byte_to_Z. rewrite N2Z.id, Byte.of_to_N. reflexivity.
Qed.

Lemma int16_of_bytes_range (lo hi : byte) :
  -32768 <= int16_of_bytes lo hi <= 32767.
Proof.
  pose proof (byte_to_Z_range lo). pose proof (byte_to_Z_range hi).
  unfold int16_of_bytes. cbv zeta.
  destruct (Z.ltb_spec (byte_to_Z lo + 256 * byte_to_Z hi) 32768); lia.
Qed.

Lemma int16_of_bytes_little_endian (lo hi : byte) :
  int16_of_bytes lo hi mod 65536 = byte_to_Z lo + 256 * byte_to_Z hi.
Proof.
  pose proof (byte_to_Z_range lo). pose proof (byte_to_Z_range hi).
  unfold int16_of_bytes. cbv zeta.
  destruct (Z.ltb_spec (byte_to_Z lo + 256 * byte_to_Z hi) 32768).
  - apply Z.mod_small. lia.
  - symmetry. apply (Z.mod_unique_pos _ _ (-1)); lia.
Qed.

Lemma normalise_range (s : Z) :
  -32768 <= s <= 32767 ->
  (-1 <= normalise s /\ normalise s <= 32767 # 32768)%Q.
Proof.
  intros Hs. unfold normalise, Qdiv, Qmult, Qinv, Qle, inject_Z. simpl. lia.
Qed.

(* ===================================================================== *)
(** ** The read loop *)
(* ===================================================================== *)

Lemma fread_loop_length (remaining : list byte) :
  length (fread_loop remaining) = (length remaining / 2)%nat.
Proof.
  assert (H : forall n (l : list byte), (length l < n)%nat ->
              length (fread_loop l) = (length l / 2)%nat).
  { induction n as [|n IH]; intros l Hl; [lia|].
    destruct l as [|lo [|hi rest]]; [reflexivity | reflexivity |].
    cbn [fread_loop length]. rewrite IH by (cbn [length] in Hl; lia).
    change (S (S (length rest))) with (2 + length rest)%nat.
    replace (2 + length rest)%nat with (length rest + 1 * 2)%nat by lia.
    rewrite Nat.div_add by lia. lia. }
  apply (H (S (length remaining))). lia.
Qed.

Lemma fread_loop_lookup (i : nat) :
  forall remaining : list byte,
    (i < length (fread_loop remaining))%nat ->
    exists lo hi,
      remaining !! (2 * i)%nat = Some lo /\
      remaining !! (2 * i + 1)%nat = Some hi /\
      fread_loop remaining !! i = Some (normalise (int16_of_bytes lo hi)).
Proof.
  induction i as [|i IH]; intros remaining Hi.
  - destruct remaining as [|lo [|hi rest]]; cbn in Hi; try lia.
    exists lo, hi. repeat split; reflexivity.
  - destruct remaining as [|lo [|hi rest]]; cbn [fread_loop length] in Hi; try lia.
    destruct (IH rest) as (lo' & hi' & H1 & H2 & H3); [lia|].
    exists lo', hi'.
    replace (2 * S i)%nat with (S (S (2 * i))) by lia.
    replace (S (S (2 * i)) + 1)%nat with (S (S (2 * i + 1))) by lia.
    cbn [fread_loop]. repeat split; assumption.
Qed.

Lemma pcm_of_file_length (content : list byte) :
  Z.of_nat (length (pcm_of_file content))
  = Z.max 0 ((Z.of_nat (length content) - 44) / 2).
Proof.
  unfold pcm_of_file, fseek_set, wav_header_size.
  rewrite fread_loop_length, length_skipn, Nat2Z.inj_div.
  change (Z.of_nat 2) with 2.
  destruct (Nat.le_gt_cases 44 (length content)) as [Hge|Hlt].
  - rewrite Nat2Z.inj_sub by exact Hge. change (Z.of_nat 44) with 44.
    assert (0 <= (Z.of_nat (length content) - 44) / 2)
      by (apply Z.div_pos; lia).
    lia.
  - replace (length content - 44)%nat with 0%nat by lia.
    assert ((Z.of_nat (length content) - 44) / 2 < 0)
      by (apply Z.div_lt_upper_bound; lia).
    change (Z.of_nat 0 / 2) with 0. lia.
Qed.

Lemma pcm_of_file_lookup (content : list byte) (i : nat) :
  (i < length (pcm_of_file content))%nat ->
  exists lo hi,
    content !! (44 + 2 * i)%nat = Some lo /\
    content !! (44 + 2 * i + 1)%nat = Some hi /\
    pcm_of_file content !! i = Some (normalise (int16_of_bytes lo hi)).
Proof.
  intros Hi. unfold pcm_of_file, fseek_set, wav_header_size in *.
  destruct (fread_loop_lookup i _ Hi) as (lo & hi & H1 & H2 & H3).
  exists lo, hi. rewrite lookup_drop in H1, H2.
  replace (44 + 2 * i + 1)%nat with (44 + (2 * i + 1))%nat by lia.
  repeat split; assumption.
Qed.

(* ===================================================================== *)
(** ** Properties of the bridge, for every engine and runtime *)
(* ===================================================================== *)

Section BridgeProperties.

Context {engine : WhisperEngine} {runtime : AndroidRuntime}.

Implicit Types (w : World) (e : Event).

Lemma trace_record e w : trace (record e w) = trace w ++ [e].
Proof. reflexivity. Qed.

Lemma world_ext w1 w2 :
  engine_mem w1 = engine_mem w2 ->
  files w1 = files w2 ->
  jheap w1 = jheap w2 ->
  open_assets w1 = open_assets w2 ->
  trace w1 = trace w2 ->
  w1 = w2.
Proof. destruct w1, w2. cbn. intros -> -> -> -> ->. reflexivity. Qed.

Lemma filter_snoc (f : Event -> bool) (t : list Event) e :
  List.filter f (t ++ [e]) = List.filter f t ++ (if f e then [e] else []).
Proof. rewrite List.filter_app. reflexivity. Qed.

(** Exact outcome of [read_wav]. *)
Lemma read_wav_unopenable w (fname : std_string) :
  files w (c_str fname) = None ->
  read_wav fname w
  = (Some [],
     record (EvLog ANDROID_LOG_ERROR "Failed to open audio file: %s" [ArgStr (c_str fname)])
       (record (EvFopen (c_str fname) false) w)).
Proof.
  intros Hf. unfold read_wav, bind, fopen_rb, LOGE, emit, ret. rewrite Hf. reflexivity.
Qed.

Lemma read_wav_opened w (fname : std_string) (content : list byte) :
  files w (c_str fname) = Some content ->
  read_wav fname w
  = (Some (pcm_of_file content),
     record (EvLog ANDROID_LOG_INFO "Read %zu samples from %s"
               [ArgInt (Z.of_nat (length (pcm_of_file content))); ArgStr (c_str fname)])
       (record (EvFclose (c_str fname))
          (record (EvFopen (c_str fname) true) w))).
Proof.
  intros Hf. unfold read_wav, bind, fopen_rb, fclose, LOGI, emit, ret. rewrite Hf.
  reflexivity.
Qed.

(** C5.  The PCM reader returns the empty sequence for a file that cannot
    be opened; for a file of [b] bytes it returns [max 0 ((b - 44) / 2)]
    samples (so none when [b < 44], and a trailing odd byte is dropped),
    the [i]-th of which is the signed 16-bit little-endian integer at
    offset [44 + 2 i] divided by 32768, a value in [-1, 32767/32768]. *)
Theorem read_wav_samples w (fname : std_string) :
  (files w (c_str fname) = None -> fst (read_wav fname w) = Some [])
  /\ (forall content : list byte,
        files w (c_str fname) = Some content ->
        exists pcm : list jfloat,
          fst (read_wav fname w) = Some pcm
          /\ Z.of_nat (length pcm) = Z.max 0 ((Z.of_nat (length content) - 44) / 2)
          /\ ((length content < 44)%nat -> pcm = [])
          /\ forall i : nat, (i < length pcm)%nat ->
               exists lo hi : byte,
                 content !! (44 + 2 * i)%nat = Some lo
                 /\ content !! (44 + 2 * i + 1)%nat = Some hi
                 /\ int16_of_bytes lo hi mod 65536 = byte_to_Z lo + 256 * byte_to_Z hi
                 /\ -32768 <= int16_of_bytes lo hi <= 32767
                 /\ pcm !! i = Some (inject_Z (int16_of_bytes lo hi) / inject_Z 32768)%Q
                 /\ (-1 <= inject_Z (int16_of_bytes lo hi) / inject_Z 32768)%Q
                 /\ (inject_Z (int16_of_bytes lo hi) / inject_Z 32768 <= 32767 # 32768)%Q).
Proof.
  split.
  - intros Hf. rewrite read_wav_unopenable by exact Hf. reflexivity.
  - intros content Hf. exists (pcm_of_file content).
    rewrite read_wav_opened with (content := content) by exact Hf.
    split; [reflexivity|]. split; [apply pcm_of_file_length|]. split.
    + intros Hshort. pose proof (pcm_of_file_length content) as Hlen.
      destruct (pcm_of_file content) as [|x l]; [reflexivity|].
      cbn [length] in Hlen.
      assert ((Z.of_nat (length content) - 44) / 2 < 0)
        by (apply Z.div_lt_upper_bound; lia).
      lia.
    + intros i Hi.
      destruct (pcm_of_file_lookup content i Hi) as (lo & hi & H1 & H2 & H3).
      exists lo, hi.
      pose proof (int16_of_bytes_range lo hi) as Hr.
      destruct (normalise_range _ Hr) as [Hlo Hhi].
      repeat split; try assumption; try lia.
      apply int16_of_bytes_little_endian.
Qed.

(** C1.  With the zero handle, the segment count is 0, the segment text
    is the empty string, freeing does nothing at all, and transcription
    returns after one log line: no call reaches the engine and the float
    array is neither read nor released. *)
Theorem null_handle_defaults w (numThreads audioData index : Z) :
  let logged := record (EvLog ANDROID_LOG_ERROR "Invalid context pointer" []) w in
  getTextSegmentCount 0 w = (Some 0, logged)
  /\ getTextSegment 0 index w = (Some [], logged)
  /\ freeContext 0 w = (Some tt, w)
  /\ fullTranscribe 0 numThreads audioData w = (Some tt, logged)
  /\ engine_calls (trace logged) = engine_calls (trace w)
  /\ array_accesses (trace logged) = array_accesses (trace w)
  /\ engine_mem logged = engine_mem w
  /\ jheap logged = jheap w.
Proof.
  cbv zeta. repeat split.
  - unfold engine_calls. rewrite trace_record, filter_snoc. cbn. apply app_nil_r.
  - unfold array_accesses. rewrite trace_record, filter_snoc. cbn. apply app_nil_r.
Qed.

(** The two parameter structs as values: both are the engine's defaults
    for greedy sampling with the same twelve assignments, and they agree
    on every field except the thread count. *)
Lemma wparams_agree (numThreads : Z) :
  let primary := fullTranscribe_wparams numThreads in
  let legacy := nativeTranscribe_wparams in
  print_progress primary = false /\ print_progress legacy = false
  /\ print_special primary = false /\ print_special legacy = false
  /\ print_realtime primary = false /\ print_realtime legacy = false
  /\ print_timestamps primary = false /\ print_timestamps legacy = false
  /\ translate primary = false /\ translate legacy = false
  /\ language primary = Some (lit "en") /\ language legacy = Some (lit "en")
  /\ offset_ms primary = 0 /\ offset_ms legacy = 0
  /\ duration_ms primary = 0 /\ duration_ms legacy = 0
  /\ single_segment primary = false /\ single_segment legacy = false
  /\ max_tokens primary = 0 /\ max_tokens legacy = 0
  /\ audio_ctx primary = 0 /\ audio_ctx legacy = 0
  /\ other_fields primary = other_fields (whisper_full_default_params WHISPER_SAMPLING_GREEDY)
  /\ other_fields legacy = other_fields (whisper_full_default_params WHISPER_SAMPLING_GREEDY)
  /\ n_threads primary = numThreads
  /\ n_threads legacy = 4
  /\ legacy = fullTranscribe_wparams 4.
Proof. cbv zeta. repeat split. Qed.

(** C2, as the code has it.  The segment-text query returns the empty
    string for the zero handle and when the engine returns a null
    pointer; for every other handle and every index, in range or not, it
    returns the text the engine's query returned for that index. *)
Theorem getTextSegment_returns w (contextPtr index : Z) :
  fst (getTextSegment contextPtr index w)
  = Some (if contextPtr =? 0 then []
          else match whisper_full_get_segment_text contextPtr index (engine_mem w) with
               | None => []
               | Some text => NewStringUTF text
               end).
Proof.
  unfold getTextSegment. destruct (contextPtr =? 0); [reflexivity|].
  unfold bind, call_get_segment_text, ret. cbn.
  destruct (whisper_full_get_segment_text contextPtr index (engine_mem w)); reflexivity.
Qed.

(** Exact outcome of the primary transcription on a live handle. *)
Lemma fullTranscribe_valid w (contextPtr numThreads audioData : Z)
    (samples : list jfloat) (status : Z) (m : engine_memory) :
  contextPtr <> 0 ->
  jheap w !! audioData = Some samples ->
  whisper_full contextPtr (fullTranscribe_wparams numThreads) samples
    (Z.of_nat (length samples)) (engine_mem w) = (status, m) ->
  fullTranscribe contextPtr numThreads audioData w
  = (Some tt,
     record (if negb (status =? 0)
             then EvLog ANDROID_LOG_ERROR "Failed to process audio, error code: %d"
                    [ArgInt status]
             else EvLog ANDROID_LOG_INFO "Audio processing completed successfully" [])
       (record (EvReleaseFloatArrayElements audioData JNI_ABORT)
          (record (EvFull contextPtr (fullTranscribe_wparams numThreads) samples
                     (Z.of_nat (length samples)))
             (set_engine_mem m
                (record (EvLog ANDROID_LOG_INFO "Processing %d audio samples with %d threads"
                           [ArgInt (Z.of_nat (length samples)); ArgInt numThreads])
                   (record (EvGetArrayLength audioData)
                      (record (EvGetFloatArrayElements audioData) w))))))).
Proof.
  intros Hctx Harr Hfull. unfold fullTranscribe.
  apply Z.eqb_neq in Hctx. rewrite Hctx.
  unfold bind, GetFloatArrayElements, GetArrayLength, LOGI, LOGE, emit, call_full,
    ReleaseFloatArrayElements.
  rewrite Harr. cbn. rewrite Harr. cbn. rewrite Hfull.
  destruct (negb (status =? 0)); reflexivity.
Qed.

(** C9.  On a live handle and a live array, the primary transcription
    returns, and the Java heap is the one it started with, whatever status
    the engine reports: the array is read once, handed to the engine, and
    released once with [JNI_ABORT], the mode that copies nothing back. *)
Theorem fullTranscribe_array_unchanged w (contextPtr numThreads audioData : Z)
    (samples : list jfloat) :
  contextPtr <> 0 ->
  jheap w !! audioData = Some samples ->
  let w' := after (fullTranscribe contextPtr numThreads audioData) w in
  fst (fullTranscribe contextPtr numThreads audioData w) = Some tt
  /\ jheap w' = jheap w
  /\ jheap w' !! audioData = Some samples
  /\ array_accesses (trace w')
     = array_accesses (trace w)
       ++ [EvGetFloatArrayElements audioData; EvGetArrayLength audioData;
           EvReleaseFloatArrayElements audioData JNI_ABORT]
  /\ full_calls (trace w')
     = full_calls (trace w)
       ++ [EvFull contextPtr (fullTranscribe_wparams numThreads) samples
             (Z.of_nat (length samples))].
Proof.
  intros Hctx Harr. cbv zeta. unfold after.
  destruct (whisper_full contextPtr (fullTranscribe_wparams numThreads) samples
              (Z.of_nat (length samples)) (engine_mem w)) as [status m] eqn:Hfull.
  rewrite (fullTranscribe_valid w _ _ _ samples status m Hctx Harr Hfull).
  cbn [fst snd]. split; [reflexivity|]. split; [reflexivity|]. split; [exact Harr|].
  unfold array_accesses, full_calls. rewrite !trace_record. cbn [trace set_engine_mem].
  rewrite !trace_record, !filter_snoc.
  destruct (negb (status =? 0)); cbn; rewrite ?app_nil_r, <- ?app_assoc; split; reflexivity.
Qed.

(** Exact outcomes of context creation from an asset. *)
Ltac run_asset :=
  unfold initContextFromAsset, bind, LOGI, LOGE, emit, ret, call_AAssetManager_fromJava,
    call_AAssetManager_open, call_AAsset_getLength, call_AAsset_getBuffer,
    call_AAsset_close, call_init_from_buffer, bind, emit, ret.

Ltac same_world :=
  apply world_ext;
  cbn [engine_mem files jheap open_assets trace record extend set_open_assets
         set_engine_mem set_jheap remove_first];
  rewrite ?Z.eqb_refl, <- ?app_assoc, ?app_nil_r; reflexivity.

Lemma initContextFromAsset_no_manager w (assetManager : Z) (assetPath : option java_string) :
  let path := c_str (jstring2string assetPath) in
  AAssetManager_fromJava assetManager = 0 ->
  initContextFromAsset assetManager assetPath w
  = (Some 0,
     extend [EvLog ANDROID_LOG_INFO "Initializing Whisper context from asset: %s" [ArgStr path];
             EvAssetManagerFromJava assetManager;
             EvLog ANDROID_LOG_ERROR "Failed to get native asset manager" []] w).
Proof.
  cbv zeta. intros Hmgr. run_asset. cbn [fst snd]. rewrite Hmgr. cbn [Z.eqb].
  f_equal. same_world.
Qed.

Lemma initContextFromAsset_not_opened w (assetManager : Z) (assetPath : option java_string) :
  let path := c_str (jstring2string assetPath) in
  let mgr := AAssetManager_fromJava assetManager in
  mgr <> 0 ->
  AAssetManager_open mgr path AASSET_MODE_BUFFER = 0 ->
  initContextFromAsset assetManager assetPath w
  = (Some 0,
     extend [EvLog ANDROID_LOG_INFO "Initializing Whisper context from asset: %s" [ArgStr path];
             EvAssetManagerFromJava assetManager;
             EvAssetOpen mgr path AASSET_MODE_BUFFER;
             EvLog ANDROID_LOG_ERROR "Failed to open asset: %s" [ArgStr path]] w).
Proof.
  cbv zeta. intros Hmgr Hasset. run_asset. cbn [fst snd].
  apply Z.eqb_neq in Hmgr. rewrite Hmgr, Hasset. cbn [Z.eqb].
  f_equal. same_world.
Qed.

Lemma initContextFromAsset_no_data w (assetManager : Z) (assetPath : option java_string) :
  let path := c_str (jstring2string assetPath) in
  let mgr := AAssetManager_fromJava assetManager in
  let asset := AAssetManager_open mgr path AASSET_MODE_BUFFER in
  mgr <> 0 -> asset <> 0 ->
  AAsset_getBuffer asset = None \/ AAsset_getLength asset <= 0 ->
  initContextFromAsset assetManager assetPath w
  = (Some 0,
     extend [EvLog ANDROID_LOG_INFO "Initializing Whisper context from asset: %s" [ArgStr path];
             EvAssetManagerFromJava assetManager;
             EvAssetOpen mgr path AASSET_MODE_BUFFER;
             EvAssetGetLength asset;
             EvAssetGetBuffer asset;
             EvLog ANDROID_LOG_ERROR "Failed to read asset data: %s" [ArgStr path];
             EvAssetClose asset] w).
Proof.
  cbv zeta. intros Hmgr Hasset Hdata. run_asset. cbn [fst snd].
  apply Z.eqb_neq in Hmgr. rewrite Hmgr.
  apply Z.eqb_neq in Hasset. rewrite Hasset. cbn [fst snd].
  destruct (AAsset_getBuffer _) as [data|].
  - destruct Hdata as [Hnone|Hle]; [discriminate|].
    apply Z.leb_le in Hle. rewrite Hle. f_equal. same_world.
  - f_equal. same_world.
Qed.

Lemma initContextFromAsset_loaded w (assetManager : Z) (assetPath : option java_string)
    (data : list byte) (ctx : Z) (m : engine_memory) :
  let path := c_str (jstring2string assetPath) in
  let mgr := AAssetManager_fromJava assetManager in
  let asset := AAssetManager_open mgr path AASSET_MODE_BUFFER in
  let size := AAsset_getLength asset in
  mgr <> 0 -> asset <> 0 ->
  AAsset_getBuffer asset = Some data -> 0 < size ->
  whisper_init_from_buffer_with_params data size whisper_context_default_params
    (engine_mem w) = (ctx, m) ->
  initContextFromAsset assetManager assetPath w
  = (Some ctx,
     extend [EvLog ANDROID_LOG_INFO "Initializing Whisper context from asset: %s" [ArgStr path];
             EvAssetManagerFromJava assetManager;
             EvAssetOpen mgr path AASSET_MODE_BUFFER;
             EvAssetGetLength asset;
             EvAssetGetBuffer asset;
             EvLog ANDROID_LOG_INFO "Asset loaded successfully: %s (size: %ld bytes)"
               [ArgStr path; ArgInt size];
             EvInitFromBuffer data size;
             EvAssetClose asset;
             if ctx =? 0
             then EvLog ANDROID_LOG_ERROR
                    "Failed to initialize Whisper context from asset: %s" [ArgStr path]
             else EvLog ANDROID_LOG_INFO
                    "Whisper context initialized successfully from asset" []]
       (set_engine_mem m w)).
Proof.
  cbv zeta. intros Hmgr Hasset Hdata Hsize Hinit. run_asset. cbn [fst snd].
  apply Z.eqb_neq in Hmgr. rewrite Hmgr.
  apply Z.eqb_neq in Hasset. rewrite Hasset. cbn [fst snd].
  rewrite Hdata. apply Z.leb_gt in Hsize. rewrite Hsize.
  cbn [engine_mem record set_open_assets]. rewrite Hinit.
  destruct (Z.eqb_spec ctx 0) as [->|Hctx]; f_equal; same_world.
Qed.

Lemma trace_extend (evs : list Event) w : trace (extend evs w) = trace w ++ evs.
Proof. reflexivity. Qed.

(** C10.  When the asset manager is obtained and the asset opens, context
    creation from an asset returns, and by then the asset has been closed
    exactly once and is no longer open.  With a null buffer or a length
    that is not positive the result is the zero handle and the engine is
    not called; otherwise the result is the handle the engine's buffer
    load returned (zero when it failed), the close follows that call
    directly, and the bridge keeps nothing of the buffer: the file system
    and the Java heap are untouched.  When nothing was opened nothing is
    closed. *)
Theorem asset_closed_exactly_once w (assetManager : Z) (assetPath : option java_string) :
  let path := c_str (jstring2string assetPath) in
  let mgr := AAssetManager_fromJava assetManager in
  let asset := AAssetManager_open mgr path AASSET_MODE_BUFFER in
  let size := AAsset_getLength asset in
  let r := initContextFromAsset assetManager assetPath w in
  (mgr <> 0 -> asset <> 0 ->
     exists handle : Z,
       fst r = Some handle
       /\ asset_closes (trace (snd r)) = asset_closes (trace w) ++ [EvAssetClose asset]
       /\ open_assets (snd r) = open_assets w
       /\ files (snd r) = files w
       /\ jheap (snd r) = jheap w
       /\ (AAsset_getBuffer asset = None \/ size <= 0 ->
             handle = 0
             /\ engine_mem (snd r) = engine_mem w
             /\ engine_calls (trace (snd r)) = engine_calls (trace w))
       /\ (forall data : list byte,
             AAsset_getBuffer asset = Some data -> 0 < size ->
             handle = fst (whisper_init_from_buffer_with_params data size
                             whisper_context_default_params (engine_mem w))
             /\ engine_mem (snd r)
                = snd (whisper_init_from_buffer_with_params data size
                         whisper_context_default_params (engine_mem w))
             /\ exists (before : list Event) (last : Event),
                  trace (snd r)
                  = trace w ++ before
                    ++ [EvInitFromBuffer data size; EvAssetClose asset; last]
                  /\ asset_closes before = []
                  /\ is_asset_close last = false))
  /\ (mgr = 0 \/ asset = 0 ->
        fst r = Some 0
        /\ asset_closes (trace (snd r)) = asset_closes (trace w)
        /\ open_assets (snd r) = open_assets w).
Proof.
  cbv zeta.
  set (path := c_str (jstring2string assetPath)).
  set (mgr := AAssetManager_fromJava assetManager).
  set (asset := AAssetManager_open mgr path AASSET_MODE_BUFFER).
  set (size := AAsset_getLength asset).
  split.
  - intros Hmgr Hasset.
    destruct (AAsset_getBuffer asset) as [data|] eqn:Hbuf;
      [destruct (Z.lt_ge_cases 0 size) as [Hpos|Hle]|].
    + (* a buffer of positive length: the engine is called *)
      destruct (whisper_init_from_buffer_with_params data size
                  whisper_context_default_params (engine_mem w)) as [ctx m] eqn:Hinit.
      rewrite (initContextFromAsset_loaded w assetManager assetPath data ctx m
                 Hmgr Hasset Hbuf Hpos Hinit).
      fold path mgr asset size. exists ctx. cbn [fst snd].
      split; [reflexivity|]. split.
      { unfold asset_closes. rewrite trace_extend, List.filter_app.
        cbn [trace set_engine_mem]. f_equal.
        destruct (ctx =? 0); reflexivity. }
      split; [reflexivity|]. split; [reflexivity|]. split; [reflexivity|]. split.
      { intros [Hnone|Hle]; [discriminate | lia]. }
      intros data' Hdata' _. injection Hdata' as <-. rewrite Hinit. cbn [fst snd].
      split; [reflexivity|]. split; [reflexivity|].
      eexists [_; _; _; _; _; _], _. split; [reflexivity|].
      split; [reflexivity|]. destruct (ctx =? 0); reflexivity.
    + (* a length that is not positive *)
      rewrite (initContextFromAsset_no_data w assetManager assetPath Hmgr Hasset)
        by (right; exact Hle).
      fold path mgr asset. exists 0. cbn [fst snd].
      split; [reflexivity|]. split.
      { unfold asset_closes. rewrite trace_extend, List.filter_app. reflexivity. }
      split; [reflexivity|]. split; [reflexivity|]. split; [reflexivity|]. split.
      { intros _. split; [reflexivity|]. split; [reflexivity|].
        unfold engine_calls. rewrite trace_extend, List.filter_app. cbn. apply app_nil_r. }
      intros data' _ Hpos. lia.
    + (* a null buffer *)
      rewrite (initContextFromAsset_no_data w assetManager assetPath Hmgr Hasset)
        by (left; exact Hbuf).
      fold path mgr asset. exists 0. cbn [fst snd].
      split; [reflexivity|]. split.
      { unfold asset_closes. rewrite trace_extend, List.filter_app. reflexivity. }
      split; [reflexivity|]. split; [reflexivity|]. split; [reflexivity|]. split.
      { intros _. split; [reflexivity|]. split; [reflexivity|].
        unfold engine_calls. rewrite trace_extend, List.filter_app. cbn. apply app_nil_r. }
      intros data' Hdata'. discriminate.
  - intros Hnothing.
    destruct (Z.eq_dec mgr 0) as [Hmgr|Hmgr].
    + rewrite (initContextFromAsset_no_manager w assetManager assetPath Hmgr).
      cbn [fst snd]. split; [reflexivity|]. split; [|reflexivity].
      unfold asset_closes. rewrite trace_extend, List.filter_app. cbn. apply app_nil_r.
    + destruct Hnothing as [Hmgr0|Hasset]; [contradiction|].
      rewrite (initContextFromAsset_not_opened w assetManager assetPath Hmgr Hasset).
      cbn [fst snd]. split; [reflexivity|]. split; [|reflexivity].
      unfold asset_closes. rewrite trace_extend, List.filter_app. cbn. apply app_nil_r.
Qed.

(* --------------------------------------------------------------------- *)
(** *** The legacy one-shot transcription *)

Lemma read_wav_outcome w (fname : std_string) :
  read_wav fname w = (Some (audio_of w fname), extend (read_events w fname) w).
Proof.
  unfold audio_of, read_events.
  destruct (files w (c_str fname)) as [content|] eqn:Hf.
  - rewrite (read_wav_opened w fname content Hf). f_equal. same_world.
  - rewrite (read_wav_unopenable w fname Hf). f_equal. same_world.
Qed.

Lemma read_events_quiet w (fname : std_string) :
  free_calls (read_events w fname) = []
  /\ engine_calls (read_events w fname) = []
  /\ full_calls (read_events w fname) = [].
Proof.
  unfold read_events. destruct (files w (c_str fname)); repeat split.
Qed.

(** The loop over the segments touches nothing but the trace, to which it
    adds text queries only; this holds also when it meets a null text. *)
Lemma segment_loop_frame (ctx n_segments : Z) (todo : nat) :
  forall (i : Z) (result : std_string) w,
  exists evs : list Event,
    snd (segment_loop ctx n_segments i todo result w) = extend evs w
    /\ free_calls evs = []
    /\ fopen_calls evs = []
    /\ full_calls evs = [].
Proof.
  induction todo as [|todo IH]; intros i result w.
  - exists []. cbn [segment_loop]. unfold ret. cbn [snd].
    split; [same_world|]. repeat split.
  - cbn [segment_loop]. unfold bind, call_get_segment_text. cbn [engine_mem record].
    destruct (whisper_full_get_segment_text ctx i (engine_mem w)) as [t|].
    + match goal with
      | |- context [segment_loop _ _ ?j _ ?acc ?w1] =>
          destruct (IH j acc w1) as (evs & Hw & Hfree & Hfopen & Hfull)
      end.
      exists (EvGetSegmentText ctx i :: evs). rewrite Hw.
      split; [same_world|].
      unfold free_calls, fopen_calls, full_calls in *. cbn [List.filter is_free is_fopen is_full].
      repeat split; assumption.
    + exists [EvGetSegmentText ctx i]. cbn. split; [same_world|]. repeat split.
Qed.

(** With a text for every index from [i] on, the loop returns and has
    appended the texts, one space between consecutive ones. *)
Lemma segment_loop_joins (ctx n_segments : Z) (texts : list (list byte)) :
  forall (i : Z) (result : std_string) w,
    n_segments = i + Z.of_nat (length texts) ->
    (forall (k : nat) (t : list byte),
        texts !! k = Some t ->
        whisper_full_get_segment_text ctx (i + Z.of_nat k) (engine_mem w) = Some t) ->
    segment_loop ctx n_segments i (length texts) result w
    = (Some (result ++ join_with_space (map c_str texts)),
       extend (map (fun k => EvGetSegmentText ctx (i + Z.of_nat k)) (seq 0 (length texts))) w).
Proof.
  induction texts as [|t rest IH]; intros i result w Hn Htexts.
  - cbn [length segment_loop seq map join_with_space]. unfold ret.
    rewrite app_nil_r. f_equal. same_world.
  - assert (Hhead : whisper_full_get_segment_text ctx i (engine_mem w) = Some t).
    { rewrite <- (Htexts 0%nat t eq_refl). f_equal. lia. }
    cbn [length segment_loop]. unfold bind, call_get_segment_text. cbn beta.
    rewrite Hhead.
    rewrite IH.
    + f_equal.
      * f_equal. cbn [map join_with_space]. cbn [length] in Hn.
        destruct rest as [|t' rest'].
        -- cbn [length] in Hn. replace (i <? n_segments - 1) with false
             by (symmetry; apply Z.ltb_ge; lia).
           cbn. rewrite app_nil_r. reflexivity.
        -- cbn [length] in Hn. replace (i <? n_segments - 1) with true
             by (symmetry; apply Z.ltb_lt; lia).
           cbn [map]. rewrite <- !app_assoc. reflexivity.
      * unfold extend, record. cbn [engine_mem files jheap open_assets trace].
        f_equal. rewrite <- app_assoc. f_equal. cbn [seq map app].
        rewrite Z.add_0_r. f_equal.
        rewrite <- seq_shift, map_map. apply map_ext. intros k. f_equal. lia.
    + cbn [length] in Hn. lia.
    + intros k t' Hk. cbn [engine_mem record].
      replace (i + 1 + Z.of_nat k) with (i + Z.of_nat (S k)) by lia.
      apply Htexts. exact Hk.
Qed.

Ltac run_legacy :=
  unfold nativeTranscribe, bind, LOGI, LOGE, emit, ret, call_init_from_file, call_free,
    call_full, call_n_segments;
  cbn beta; cbn [engine_mem record set_engine_mem fst snd].

Lemma audio_of_files w1 w2 (fname : std_string) :
  files w1 = files w2 -> audio_of w1 fname = audio_of w2 fname.
Proof. unfold audio_of. intros ->. reflexivity. Qed.

Lemma read_events_files w1 w2 (fname : std_string) :
  files w1 = files w2 -> read_events w1 fname = read_events w2 fname.
Proof. unfold read_events. intros ->. reflexivity. Qed.

(** Exact outcomes of the legacy entry point, path by path. *)
Lemma nativeTranscribe_model_failure w (audioPath modelPath : option java_string)
    (m1 : engine_memory) :
  let audio_path := jstring2string audioPath in
  let model_path := jstring2string modelPath in
  whisper_init_from_file_with_params (c_str model_path) whisper_context_default_params
    (engine_mem w) = (0, m1) ->
  nativeTranscribe audioPath modelPath w
  = (Some model_error,
     extend (load_events audio_path model_path
             ++ [EvLog ANDROID_LOG_ERROR "Failed to load model from: %s"
                   [ArgStr (c_str model_path)]])
       (set_engine_mem m1 w)).
Proof.
  cbv zeta. intros Hinit. run_legacy. rewrite Hinit. cbn [Z.eqb fst snd].
  f_equal. same_world.
Qed.

Lemma nativeTranscribe_audio_failure w (audioPath modelPath : option java_string)
    (ctx : Z) (m1 : engine_memory) :
  let audio_path := jstring2string audioPath in
  let model_path := jstring2string modelPath in
  whisper_init_from_file_with_params (c_str model_path) whisper_context_default_params
    (engine_mem w) = (ctx, m1) ->
  ctx <> 0 ->
  audio_of w audio_path = [] ->
  nativeTranscribe audioPath modelPath w
  = (Some audio_error,
     extend (load_events audio_path model_path
             ++ read_events w audio_path
             ++ [EvFree ctx])
       (set_engine_mem (whisper_free ctx m1) w)).
Proof.
  cbv zeta. intros Hinit Hctx Haudio. run_legacy. rewrite Hinit.
  apply Z.eqb_neq in Hctx. rewrite Hctx. rewrite read_wav_outcome.
  rewrite (audio_of_files _ w) by reflexivity. rewrite Haudio.
  rewrite (read_events_files _ w) by reflexivity.
  cbn [fst snd]. f_equal. same_world.
Qed.

Lemma nativeTranscribe_processing_failure w (audioPath modelPath : option java_string)
    (ctx status : Z) (m1 m2 : engine_memory) :
  let audio_path := jstring2string audioPath in
  let model_path := jstring2string modelPath in
  let pcmf32 := audio_of w audio_path in
  whisper_init_from_file_with_params (c_str model_path) whisper_context_default_params
    (engine_mem w) = (ctx, m1) ->
  ctx <> 0 ->
  pcmf32 <> [] ->
  whisper_full ctx nativeTranscribe_wparams pcmf32
    (int_of_size_t (Z.of_nat (length pcmf32))) m1 = (status, m2) ->
  status <> 0 ->
  nativeTranscribe audioPath modelPath w
  = (Some processing_error,
     extend (load_events audio_path model_path
             ++ read_events w audio_path
             ++ full_events ctx pcmf32
             ++ [EvLog ANDROID_LOG_ERROR "Failed to process audio" []; EvFree ctx])
       (set_engine_mem (whisper_free ctx m2) w)).
Proof.
  cbv zeta. intros Hinit Hctx Haudio Hfull Hstatus. run_legacy. rewrite Hinit.
  apply Z.eqb_neq in Hctx. rewrite Hctx. rewrite read_wav_outcome.
  rewrite (audio_of_files _ w) by reflexivity.
  rewrite (read_events_files _ w) by reflexivity.
  destruct (audio_of w (jstring2string audioPath)) as [|x pcm] eqn:Hpcm; [contradiction|].
  cbn [engine_mem extend set_engine_mem record fst snd]. rewrite Hfull.
  apply Z.eqb_neq in Hstatus. rewrite Hstatus. cbn [negb fst snd].
  f_equal. same_world.
Qed.

Lemma nativeTranscribe_processed w (audioPath modelPath : option java_string)
    (ctx : Z) (m1 m2 : engine_memory) :
  let audio_path := jstring2string audioPath in
  let model_path := jstring2string modelPath in
  let pcmf32 := audio_of w audio_path in
  let n_segments := whisper_full_n_segments ctx m2 in
  whisper_init_from_file_with_params (c_str model_path) whisper_context_default_params
    (engine_mem w) = (ctx, m1) ->
  ctx <> 0 ->
  pcmf32 <> [] ->
  whisper_full ctx nativeTranscribe_wparams pcmf32
    (int_of_size_t (Z.of_nat (length pcmf32))) m1 = (0, m2) ->
  nativeTranscribe audioPath modelPath w
  = match segment_loop ctx n_segments 0 (Z.to_nat n_segments) []
            (extend (load_events audio_path model_path
                     ++ read_events w audio_path
                     ++ full_events ctx pcmf32
                     ++ [EvNSegments ctx;
                         EvLog ANDROID_LOG_INFO "Found %d segments" [ArgInt n_segments]])
               (set_engine_mem m2 w))
    with
    | (Some transcription, w') =>
        (Some (NewStringUTF transcription),
         extend [EvFree ctx;
                 EvLog ANDROID_LOG_INFO "Transcription complete: %s"
                   [ArgStr (c_str transcription)]]
           (set_engine_mem (whisper_free ctx (engine_mem w')) w'))
    | (None, w') => (None, w')
    end.
Proof.
  cbv zeta. intros Hinit Hctx Haudio Hfull. run_legacy. rewrite Hinit.
  apply Z.eqb_neq in Hctx. rewrite Hctx. rewrite read_wav_outcome.
  rewrite (audio_of_files _ w) by reflexivity.
  rewrite (read_events_files _ w) by reflexivity.
  destruct (audio_of w (jstring2string audioPath)) as [|x pcm] eqn:Hpcm; [contradiction|].
  cbn [engine_mem extend set_engine_mem record fst snd]. rewrite Hfull.
  cbn [Z.eqb negb fst snd].
  match goal with
  | |- match segment_loop _ _ _ _ _ ?w1 with _ => _ end
       = match segment_loop _ _ _ _ _ ?w2 with _ => _ end =>
      replace w1 with w2 by same_world
  end.
  destruct (segment_loop _ _ _ _ _ _) as [[transcription|] w']; [|reflexivity].
  f_equal. same_world.
Qed.

Lemma segment_loop_returns (ctx n_segments : Z) (todo : nat) :
  forall (i : Z) (result : std_string) w,
    (forall j : Z, i <= j < i + Z.of_nat todo ->
                   whisper_full_get_segment_text ctx j (engine_mem w) <> None) ->
    is_Some (fst (segment_loop ctx n_segments i todo result w)).
Proof.
  induction todo as [|todo IH]; intros i result w Htexts.
  - cbn [segment_loop]. unfold ret. cbn [fst]. eexists. reflexivity.
  - cbn [segment_loop]. unfold bind, call_get_segment_text. cbn beta.
    destruct (whisper_full_get_segment_text ctx i (engine_mem w)) as [t|] eqn:Ht.
    + apply IH. intros j Hj. cbn [engine_mem record]. apply Htexts. lia.
    + exfalso. apply (Htexts i); [lia | exact Ht].
Qed.

Lemma free_calls_extend (evs : list Event) w :
  free_calls (trace (extend evs w)) = free_calls (trace w) ++ free_calls evs.
Proof. unfold free_calls. rewrite trace_extend. apply List.filter_app. Qed.

Lemma free_calls_app (a b : list Event) : free_calls (a ++ b) = free_calls a ++ free_calls b.
Proof. apply List.filter_app. Qed.

Lemma fopen_calls_extend (evs : list Event) w :
  fopen_calls (trace (extend evs w)) = fopen_calls (trace w) ++ fopen_calls evs.
Proof. unfold fopen_calls. rewrite trace_extend. apply List.filter_app. Qed.

Lemma full_calls_extend (evs : list Event) w :
  full_calls (trace (extend evs w)) = full_calls (trace w) ++ full_calls evs.
Proof. unfold full_calls. rewrite trace_extend. apply List.filter_app. Qed.

Lemma full_calls_app (a b : list Event) : full_calls (a ++ b) = full_calls a ++ full_calls b.
Proof. apply List.filter_app. Qed.

Lemma error_strings_distinct :
  model_error <> audio_error
  /\ model_error <> processing_error
  /\ audio_error <> processing_error.
Proof. repeat split; vm_compute; discriminate. Qed.

(** C3.  The legacy entry point answers a failed model load with the
    model error and never opens the audio file then; with a model loaded,
    it answers an empty sample sequence with the audio error, before any
    transcription is attempted; with samples, it answers a nonzero status
    of the engine with the processing error.  The three strings are
    pairwise distinct. *)
Theorem nativeTranscribe_error_strings w (audioPath modelPath : option java_string) :
  let audio_path := jstring2string audioPath in
  let model_path := jstring2string modelPath in
  let loaded := whisper_init_from_file_with_params (c_str model_path)
                  whisper_context_default_params (engine_mem w) in
  let ctx := fst loaded in
  let pcmf32 := audio_of w audio_path in
  let processed := whisper_full ctx nativeTranscribe_wparams pcmf32
                     (int_of_size_t (Z.of_nat (length pcmf32))) (snd loaded) in
  let r := nativeTranscribe audioPath modelPath w in
  (ctx = 0 ->
     fst r = Some model_error
     /\ fopen_calls (trace (snd r)) = fopen_calls (trace w)
     /\ full_calls (trace (snd r)) = full_calls (trace w))
  /\ (ctx <> 0 -> pcmf32 = [] ->
        fst r = Some audio_error
        /\ full_calls (trace (snd r)) = full_calls (trace w))
  /\ (ctx <> 0 -> pcmf32 <> [] -> fst processed <> 0 ->
        fst r = Some processing_error)
  /\ model_error <> audio_error
  /\ model_error <> processing_error
  /\ audio_error <> processing_error.
Proof.
  cbv zeta.
  destruct (whisper_init_from_file_with_params _ _ _) as [ctx m1] eqn:Hinit.
  cbn [fst snd].
  split; [|split; [|split; [|exact error_strings_distinct]]].
  - intros ->.
    rewrite (nativeTranscribe_model_failure w audioPath modelPath m1 Hinit).
    cbn [fst snd]. split; [reflexivity|].
    rewrite fopen_calls_extend, full_calls_extend. cbn. rewrite !app_nil_r.
    split; reflexivity.
  - intros Hctx Haudio.
    rewrite (nativeTranscribe_audio_failure w audioPath modelPath ctx m1 Hinit Hctx Haudio).
    cbn [fst snd]. split; [reflexivity|].
    rewrite full_calls_extend, !full_calls_app.
    destruct (read_events_quiet w (jstring2string audioPath)) as (_ & _ & ->).
    cbn. apply app_nil_r.
  - intros Hctx Haudio Hstatus.
    destruct (whisper_full _ _ _ _ _) as [status m2] eqn:Hfull. cbn [fst] in Hstatus.
    rewrite (nativeTranscribe_processing_failure w audioPath modelPath ctx status m1 m2
               Hinit Hctx Haudio Hfull Hstatus).
    reflexivity.
Qed.

Lemma load_events_quiet (audio_path model_path : std_string) :
  free_calls (load_events audio_path model_path) = [].
Proof. reflexivity. Qed.

Lemma full_events_quiet (ctx : Z) (pcmf32 : list jfloat) :
  free_calls (full_events ctx pcmf32) = [].
Proof. reflexivity. Qed.

(** C4.  In the legacy entry point the engine's release is never called
    when the model load failed; when the load succeeded and the call
    returns, it has been called exactly once, on the context just
    created; it is never called twice.  The call does return on the
    empty-audio path, on the processing-failure path, and on the success
    path as soon as every segment below the count has a text. *)
Theorem nativeTranscribe_frees_once w (audioPath modelPath : option java_string) :
  let audio_path := jstring2string audioPath in
  let model_path := jstring2string modelPath in
  let loaded := whisper_init_from_file_with_params (c_str model_path)
                  whisper_context_default_params (engine_mem w) in
  let ctx := fst loaded in
  let pcmf32 := audio_of w audio_path in
  let processed := whisper_full ctx nativeTranscribe_wparams pcmf32
                     (int_of_size_t (Z.of_nat (length pcmf32))) (snd loaded) in
  let n_segments := whisper_full_n_segments ctx (snd processed) in
  let r := nativeTranscribe audioPath modelPath w in
  (ctx = 0 ->
     is_Some (fst r) /\ free_calls (trace (snd r)) = free_calls (trace w))
  /\ (ctx <> 0 -> is_Some (fst r) ->
        free_calls (trace (snd r)) = free_calls (trace w) ++ [EvFree ctx])
  /\ (free_calls (trace (snd r)) = free_calls (trace w)
       \/ free_calls (trace (snd r)) = free_calls (trace w) ++ [EvFree ctx])
  /\ (ctx <> 0 -> pcmf32 = [] -> is_Some (fst r))
  /\ (ctx <> 0 -> pcmf32 <> [] -> fst processed <> 0 -> is_Some (fst r))
  /\ (ctx <> 0 -> pcmf32 <> [] -> fst processed = 0 ->
        (forall i : Z, 0 <= i < n_segments ->
           whisper_full_get_segment_text ctx i (snd processed) <> None) ->
        is_Some (fst r)).
Proof.
  cbv zeta.
  destruct (whisper_init_from_file_with_params _ _ _) as [ctx m1] eqn:Hinit.
  cbn [fst snd].
  destruct (whisper_full _ _ _ _ _) as [status m2] eqn:Hfull. cbn [fst snd].
  pose proof (read_events_quiet w (jstring2string audioPath)) as (Hread & _ & _).
  destruct (Z.eq_dec ctx 0) as [->|Hctx].
  { (* the model did not load *)
    rewrite (nativeTranscribe_model_failure w audioPath modelPath m1 Hinit).
    cbn [fst snd]. rewrite free_calls_extend, free_calls_app, load_events_quiet.
    cbn. rewrite app_nil_r.
    repeat split; try (intros; contradiction); try (left; reflexivity).
    eexists; reflexivity. }
  destruct (audio_of w (jstring2string audioPath)) as [|x pcm] eqn:Haudio.
  { (* no samples *)
    rewrite (nativeTranscribe_audio_failure w audioPath modelPath ctx m1 Hinit Hctx Haudio).
    cbn [fst snd].
    rewrite free_calls_extend, !free_calls_app, load_events_quiet, Hread. cbn [app].
    repeat split; try (intros; contradiction); try (right; reflexivity);
      try (eexists; reflexivity). }
  assert (Hpcm : audio_of w (jstring2string audioPath) <> [])
    by (rewrite Haudio; discriminate).
  rewrite <- Haudio in Hfull.
  destruct (Z.eq_dec status 0) as [->|Hstatus].
  2: { (* the engine reports a failure *)
    rewrite (nativeTranscribe_processing_failure w audioPath modelPath ctx status m1 m2
               Hinit Hctx Hpcm Hfull Hstatus).
    cbn [fst snd].
    rewrite free_calls_extend, !free_calls_app, load_events_quiet, Hread,
      full_events_quiet. cbn.
    repeat split; try (intros; contradiction); try (right; reflexivity);
      try (eexists; reflexivity). }
  (* the engine reports success: the loop over the segments *)
  rewrite (nativeTranscribe_processed w audioPath modelPath ctx m1 m2 Hinit Hctx Hpcm Hfull).
  match goal with
  | |- context [segment_loop ctx ?n 0 ?todo [] ?w3] =>
      destruct (segment_loop_frame ctx n todo 0 [] w3) as (evs & Hw & Hfree & _ & _);
      pose proof (segment_loop_returns ctx n todo 0 [] w3) as Hreturns;
      destruct (segment_loop ctx n 0 todo [] w3) as [[transcription|] w'] eqn:Hloop
  end; cbn [fst snd] in *; subst w'.
  - rewrite free_calls_extend. cbn [set_engine_mem trace].
    rewrite !free_calls_extend, Hfree.
    rewrite !free_calls_app, load_events_quiet, Hread, full_events_quiet.
    cbn. rewrite !app_nil_r.
    repeat split; try (intros; contradiction); try (right; reflexivity);
      try (eexists; reflexivity).
  - rewrite !free_calls_extend, Hfree.
    rewrite !free_calls_app, load_events_quiet, Hread, full_events_quiet.
    cbn. rewrite !app_nil_r.
    split; [intros; contradiction|].
    split; [intros _ [? [=]]|].
    split; [left; reflexivity|].
    split; [intros _ [=]|].
    split; [intros _ _ Hne; contradiction|].
    intros _ _ _ Htexts. exfalso.
    assert (Hnone : is_Some (@None std_string)); [|destruct Hnone as [? [=]]].
    apply Hreturns.
    intros j Hj. cbn [engine_mem extend set_engine_mem]. apply Htexts. lia.
Qed.

Lemma error_strings_not_empty :
  model_error <> [] /\ audio_error <> [] /\ processing_error <> [].
Proof. repeat split; vm_compute; discriminate. Qed.

(** C7.  On the success path of the legacy entry point (model loaded,
    samples read, status 0), when the engine reports [n] segments whose
    texts are [t_0 .. t_(n-1)], the string returned is built from those
    texts joined with one space between consecutive ones and nothing
    before or after; with no segment it is the empty string, which is
    none of the error strings. *)
Theorem nativeTranscribe_joins_segments w (audioPath modelPath : option java_string)
    (texts : list (list byte)) :
  let audio_path := jstring2string audioPath in
  let model_path := jstring2string modelPath in
  let loaded := whisper_init_from_file_with_params (c_str model_path)
                  whisper_context_default_params (engine_mem w) in
  let ctx := fst loaded in
  let pcmf32 := audio_of w audio_path in
  let processed := whisper_full ctx nativeTranscribe_wparams pcmf32
                     (int_of_size_t (Z.of_nat (length pcmf32))) (snd loaded) in
  ctx <> 0 ->
  pcmf32 <> [] ->
  fst processed = 0 ->
  whisper_full_n_segments ctx (snd processed) = Z.of_nat (length texts) ->
  (forall (i : nat) (t : list byte),
      texts !! i = Some t ->
      whisper_full_get_segment_text ctx (Z.of_nat i) (snd processed) = Some t) ->
  fst (nativeTranscribe audioPath modelPath w)
  = Some (NewStringUTF (join_with_space (map c_str texts)))
  /\ (texts = [] ->
        fst (nativeTranscribe audioPath modelPath w) = Some []
        /\ [] <> model_error /\ [] <> audio_error /\ [] <> processing_error).
Proof.
  cbv zeta.
  destruct (whisper_init_from_file_with_params _ _ _) as [ctx m1] eqn:Hinit.
  cbn [fst snd].
  destruct (whisper_full _ _ _ _ _) as [status m2] eqn:Hfull. cbn [fst snd].
  intros Hctx Hpcm -> Hn Htexts.
  assert (Hresult : fst (nativeTranscribe audioPath modelPath w)
                    = Some (NewStringUTF (join_with_space (map c_str texts)))).
  { rewrite (nativeTranscribe_processed w audioPath modelPath ctx m1 m2
               Hinit Hctx Hpcm Hfull).
    rewrite Hn, Nat2Z.id.
    rewrite (segment_loop_joins ctx (Z.of_nat (length texts)) texts 0 []).
    - reflexivity.
    - lia.
    - intros k t Hk. cbn [engine_mem extend set_engine_mem]. apply Htexts. exact Hk. }
  split; [exact Hresult|].
  intros ->. rewrite Hresult.
  destruct error_strings_not_empty as (H1 & H2 & H3).
  repeat split; congruence.
Qed.

End BridgeProperties.

(* ===================================================================== *)
(** ** The string conversions *)
(* ===================================================================== *)

Lemma is_nul_of_Z (z : Z) : 0 < z < 256 -> is_nul (byte_of_Z z) = false.
Proof.
  intros Hz. unfold is_nul.
  destruct (Byte.eqb (byte_of_Z z) x00) eqn:E; [|reflexivity].
  apply Byte.byte_dec_bl in E.
  assert (H : byte_to_Z (byte_of_Z z) = byte_to_Z x00) by (rewrite E; reflexivity).
  rewrite byte_to_of_Z, Z.mod_small in H by lia.
  change (byte_to_Z x00) with 0 in H. lia.
Qed.

Ltac euclid := Z.to_euclidean_division_equations; lia.

(** The bytes of a code point other than U+0000 hold no NUL. *)
Lemma c_str_utf8_of_code_point (c : Z) (rest : list byte) :
  0 < c < 0x110000 ->
  c_str (utf8_of_code_point c ++ rest) = utf8_of_code_point c ++ c_str rest.
Proof.
  intros Hc. unfold utf8_of_code_point.
  destruct (Z.ltb_spec c 0x80); [|destruct (Z.ltb_spec c 0x800);
                                   [|destruct (Z.ltb_spec c 0x10000)]];
    cbn [app c_str]; rewrite ?is_nul_of_Z; try reflexivity; euclid.
Qed.

(** The decoder, one character at a time. *)
Lemma decode_utf_1 (b1 : byte) (r : list byte) :
  byte_to_Z b1 < 0x80 ->
  decode_utf (b1 :: r) = byte_to_Z b1 :: decode_utf r.
Proof.
  intros H. cbn [decode_utf]. cbv zeta.
  destruct (Z.ltb_spec (byte_to_Z b1) 0x80); [reflexivity | lia].
Qed.

Lemma decode_utf_2 (b1 b2 : byte) (r : list byte) :
  0xC0 <= byte_to_Z b1 < 0xE0 ->
  decode_utf (b1 :: b2 :: r)
  = ((byte_to_Z b1 mod 32) * 64 + byte_to_Z b2 mod 64) :: decode_utf r.
Proof.
  intros H. cbn [decode_utf]. cbv zeta.
  destruct (Z.ltb_spec (byte_to_Z b1) 0x80); [lia|].
  destruct (Z.eqb_spec ((byte_to_Z b1 / 32) mod 2) 0); [reflexivity | euclid].
Qed.

Lemma decode_utf_3 (b1 b2 b3 : byte) (r : list byte) :
  0xE0 <= byte_to_Z b1 < 0xF0 ->
  decode_utf (b1 :: b2 :: b3 :: r)
  = ((byte_to_Z b1 mod 16) * 4096 + (byte_to_Z b2 mod 64) * 64 + byte_to_Z b3 mod 64)
      :: decode_utf r.
Proof.
  intros H. cbn [decode_utf]. cbv zeta.
  destruct (Z.ltb_spec (byte_to_Z b1) 0x80); [lia|].
  destruct (Z.eqb_spec ((byte_to_Z b1 / 32) mod 2) 0); [euclid|].
  destruct (Z.eqb_spec ((byte_to_Z b1 / 16) mod 2) 0); [reflexivity | euclid].
Qed.

Lemma decode_utf_4 (b1 b2 b3 b4 : byte) (r : list byte) :
  0xF0 <= byte_to_Z b1 ->
  decode_utf (b1 :: b2 :: b3 :: b4 :: r)
  = (let cp := (byte_to_Z b1 mod 16) * 262144 + (byte_to_Z b2 mod 64) * 4096
               + (byte_to_Z b3 mod 64) * 64 + byte_to_Z b4 mod 64 in
     ((cp / 1024 + 0xD7C0) mod 65536) :: (cp mod 1024 + 0xDC00) :: decode_utf r).
Proof.
  intros H. pose proof (byte_to_Z_range b1). cbn [decode_utf]. cbv zeta.
  destruct (Z.ltb_spec (byte_to_Z b1) 0x80); [lia|].
  destruct (Z.eqb_spec ((byte_to_Z b1 / 32) mod 2) 0); [euclid|].
  destruct (Z.eqb_spec ((byte_to_Z b1 / 16) mod 2) 0); [euclid | reflexivity].
Qed.

(** Decoding undoes the encoding of one code point. *)
Lemma decode_utf_of_code_point (c : Z) (r : list byte) :
  0 <= c < 0x10000 ->
  decode_utf (utf8_of_code_point c ++ r) = c :: decode_utf r.
Proof.
  intros Hc. unfold utf8_of_code_point.
  destruct (Z.ltb_spec c 0x80); [|destruct (Z.ltb_spec c 0x800);
                                   [|destruct (Z.ltb_spec c 0x10000); [|lia]]];
    cbn [app].
  - rewrite decode_utf_1 by (rewrite byte_to_of_Z; euclid).
    rewrite byte_to_of_Z. f_equal. euclid.
  - rewrite decode_utf_2 by (rewrite byte_to_of_Z; euclid).
    rewrite !byte_to_of_Z. f_equal. euclid.
  - rewrite decode_utf_3 by (rewrite byte_to_of_Z; euclid).
    rewrite !byte_to_of_Z. f_equal. euclid.
Qed.

Lemma decode_utf_of_pair (hi lo : jchar) (r : list byte) :
  0xD800 <= hi <= 0xDBFF ->
  0xDC00 <= lo <= 0xDFFF ->
  decode_utf (utf8_of_code_point (code_point_of_pair hi lo) ++ r)
  = hi :: lo :: decode_utf r.
Proof.
  intros Hhi Hlo. unfold utf8_of_code_point, code_point_of_pair.
  set (c := 0x10000 + (hi - 0xD800) * 1024 + (lo - 0xDC00)).
  assert (Hc : 0x10000 <= c < 0x110000) by (subst c; lia).
  destruct (Z.ltb_spec c 0x80); [lia|].
  destruct (Z.ltb_spec c 0x800); [lia|].
  destruct (Z.ltb_spec c 0x10000); [lia|].
  cbn [app].
  rewrite decode_utf_4 by (rewrite byte_to_of_Z; euclid).
  cbv zeta. rewrite !byte_to_of_Z.
  assert (Hcp : ((0xF0 + c / 262144) mod 256 mod 16) * 262144
                + ((0x80 + (c / 4096) mod 64) mod 256 mod 64) * 4096
                + ((0x80 + (c / 64) mod 64) mod 256 mod 64) * 64
                + (0x80 + c mod 64) mod 256 mod 64 = c) by euclid.
  rewrite Hcp. f_equal; [|f_equal]; subst c; euclid.
Qed.

Lemma surrogate_bounds (u : jchar) :
  (is_high_surrogate u = true <-> 0xD800 <= u <= 0xDBFF)
  /\ (is_low_surrogate u = true <-> 0xDC00 <= u <= 0xDFFF).
Proof.
  unfold is_high_surrogate, is_low_surrogate.
  rewrite !andb_true_iff, !Z.leb_le. tauto.
Qed.

(** On a well-formed string without U+0000, the UTF-8 bytes hold no NUL
    and decode to the string. *)
Lemma getBytes_UTF8_decodes (s : java_string) :
  well_formed_utf16 s = true ->
  has_nul_char s = false ->
  c_str (getBytes_UTF8 s) = getBytes_UTF8 s
  /\ decode_utf (getBytes_UTF8 s) = s.
Proof.
  assert (H : forall (n : nat) (l : java_string),
             (length l < n)%nat ->
             well_formed_utf16 l = true ->
             has_nul_char l = false ->
             c_str (getBytes_UTF8 l) = getBytes_UTF8 l
             /\ decode_utf (getBytes_UTF8 l) = l).
  { induction n as [|n IH]; intros l Hlen Hwf Hnul; [lia|].
    destruct l as [|u rest]; [split; reflexivity|].
    cbn [well_formed_utf16 has_nul_char existsb] in Hwf, Hnul.
    apply andb_true_iff in Hwf as [Hrange Hwf].
    apply andb_true_iff in Hrange as [Hge Hlt].
    apply Z.leb_le in Hge. apply Z.ltb_lt in Hlt.
    apply orb_false_iff in Hnul as [Hu Hnul]. apply Z.eqb_neq in Hu.
    destruct (surrogate_bounds u) as [Hhigh Hlow].
    cbn [getBytes_UTF8].
    destruct (is_high_surrogate u) eqn:Ehigh.
    - destruct rest as [|v rest']; [discriminate|].
      apply andb_true_iff in Hwf as [Hv Hwf].
      cbn [existsb] in Hnul. apply orb_false_iff in Hnul as [_ Hnul].
      rewrite Hv.
      destruct (surrogate_bounds v) as [_ Hvlow]. apply Hvlow in Hv.
      assert (Hu' : 0xD800 <= u <= 0xDBFF) by (apply Hhigh; reflexivity).
      destruct (IH rest') as [IHc IHd]; [cbn [length] in Hlen; lia | exact Hwf | exact Hnul |].
      split.
      + rewrite c_str_utf8_of_code_point by (unfold code_point_of_pair; lia).
        rewrite IHc. reflexivity.
      + rewrite decode_utf_of_pair by assumption. rewrite IHd. reflexivity.
    - apply andb_true_iff in Hwf as [Hnotlow Hwf].
      apply negb_true_iff in Hnotlow. rewrite Hnotlow.
      destruct (IH rest) as [IHc IHd]; [cbn [length] in Hlen; lia | exact Hwf | exact Hnul |].
      split.
      + rewrite c_str_utf8_of_code_point by lia. rewrite IHc. reflexivity.
      + rewrite decode_utf_of_code_point by lia. rewrite IHd. reflexivity. }
  apply (H (S (length s))). lia.
Qed.

Section StringConversion.

Context {runtime : AndroidRuntime}.

(** The inbound conversion asks for the charset named UTF-8, whatever the
    other charsets of the runtime do. *)
Lemma jstring2string_is_utf8 (s : java_string) :
  jstring2string (Some s) = getBytes_UTF8 s.
Proof.
  unfold jstring2string, String_getBytes.
  replace (java_string_eqb (NewStringUTF (lit "UTF-8")) (map byte_to_Z (lit "UTF-8")))
    with true by (vm_compute; reflexivity).
  reflexivity.
Qed.


End StringConversion.

(* ===================================================================== *)
(** ** The bridge at work on the concrete engine *)
(* ===================================================================== *)

Import Demo.

Example demo_transcript :
  fst (nativeTranscribe (java "/sdcard/speech.wav") (java "/data/ggml-tiny.bin") world0)
  = Some (map byte_to_Z (lit " hello  world")).
Proof. vm_compute. reflexivity. Qed.

Example demo_samples :
  fst (read_wav (lit "/sdcard/speech.wav") world0)
  = Some [1 # 32768; -32768 # 32768; 32767 # 32768]%Q.
Proof. vm_compute. reflexivity. Qed.

Example demo_segments :
  fst (getTextSegmentCount 4096 world2) = Some 2
  /\ fst (getTextSegment 4096 0 world2) = Some (map byte_to_Z (lit " hello"))
  /\ fst (getTextSegmentCount 4096 world3) = Some 1
  /\ fst (getTextSegment 4096 0 world3) = Some (map byte_to_Z (lit "hi")).
Proof. vm_compute. repeat split. Qed.

Example demo_emoji :
  jstring2string (Some [0x48; 0xE9; 0x20AC; 0xD83D; 0xDE00])
  = [x48; xc3; xa9; xe2; x82; xac; xf0; x9f; x98; x80].
Proof. vm_compute. reflexivity. Qed.

(** The PCM reader on a file of 51 bytes: three samples. *)
Lemma read_wav_samples_witness :
  exists pcm : list jfloat,
    fst (read_wav (lit "/sdcard/speech.wav") world0) = Some pcm
    /\ Z.of_nat (length pcm) = 3.
Proof.
  destruct (read_wav_samples world0 (lit "/sdcard/speech.wav")) as [_ Hopened].
  destruct (Hopened speech_wav) as (pcm & Hpcm & Hlen & _).
  - vm_compute. reflexivity.
  - exists pcm. split; [exact Hpcm|]. rewrite Hlen. vm_compute. reflexivity.
Defined.

(** The out-of-range query after a shorter second transcription: the
    count is 1, index 1 is out of range, and the bridge returns the text
    the engine still holds there, where the specification's wording asks
    for the empty string. *)
Lemma getTextSegment_out_of_range :
  whisper_full_n_segments 4096 (engine_mem world3) = 1
  /\ getTextSegment_spec world3 4096 1 = []
  /\ fst (getTextSegment 4096 1 world3) = Some (map byte_to_Z (lit " world"))
  /\ fst (getTextSegment 4096 1 world3) <> Some (getTextSegment_spec world3 4096 1).
Proof. vm_compute. repeat split. discriminate. Qed.

(** The three error strings, each on its path. *)
Lemma nativeTranscribe_error_strings_witness :
  fst (nativeTranscribe (java "/sdcard/speech.wav") (java "/data/missing.bin") world0)
  = Some model_error
  /\ fst (nativeTranscribe (java "/sdcard/short.wav") (java "/data/ggml-tiny.bin") world0)
     = Some audio_error
  /\ fst (nativeTranscribe (java "/sdcard/click.wav") (java "/data/ggml-tiny.bin") world0)
     = Some processing_error.
Proof.
  split; [|split].
  - destruct (nativeTranscribe_error_strings world0
                (java "/sdcard/speech.wav") (java "/data/missing.bin")) as (H & _).
    apply H. vm_compute. reflexivity.
  - destruct (nativeTranscribe_error_strings world0
                (java "/sdcard/short.wav") (java "/data/ggml-tiny.bin")) as (_ & H & _).
    apply H; vm_compute; [discriminate | reflexivity].
  - destruct (nativeTranscribe_error_strings world0
                (java "/sdcard/click.wav") (java "/data/ggml-tiny.bin")) as (_ & _ & H & _).
    apply H; vm_compute; discriminate.
Defined.

(** One release on the success path, none when the model is missing. *)
Lemma nativeTranscribe_frees_once_witness :
  free_calls (trace (snd (nativeTranscribe (java "/sdcard/speech.wav")
                            (java "/data/ggml-tiny.bin") world0)))
  = [EvFree 4096]
  /\ free_calls (trace (snd (nativeTranscribe (java "/sdcard/speech.wav")
                               (java "/data/missing.bin") world0)))
     = []
  /\ is_Some (fst (nativeTranscribe (java "/sdcard/short.wav")
                     (java "/data/ggml-tiny.bin") world0))
  /\ is_Some (fst (nativeTranscribe (java "/sdcard/click.wav")
                     (java "/data/ggml-tiny.bin") world0)).
Proof.
  split; [|split; [|split]].
  - destruct (nativeTranscribe_frees_once world0
                (java "/sdcard/speech.wav") (java "/data/ggml-tiny.bin"))
      as (_ & Honce & _ & _ & _ & Hreturns).
    apply Honce; [vm_compute; discriminate|].
    apply Hreturns; [vm_compute; discriminate | vm_compute; discriminate
                     | vm_compute; reflexivity |].
    intros i Hi.
    assert (Hcases : i = 0 \/ i = 1).
    { match type of Hi with
      | _ <= _ < ?n => replace n with 2 in Hi by (vm_compute; reflexivity)
      end.
      lia. }
    destruct Hcases as [-> | ->]; vm_compute; discriminate.
  - destruct (nativeTranscribe_frees_once world0
                (java "/sdcard/speech.wav") (java "/data/missing.bin")) as (Hnone & _).
    apply Hnone. vm_compute. reflexivity.
  - destruct (nativeTranscribe_frees_once world0
                (java "/sdcard/short.wav") (java "/data/ggml-tiny.bin"))
      as (_ & _ & _ & Hempty & _).
    apply Hempty; vm_compute; [discriminate | reflexivity].
  - destruct (nativeTranscribe_frees_once world0
                (java "/sdcard/click.wav") (java "/data/ggml-tiny.bin"))
      as (_ & _ & _ & _ & Hfailed & _).
    apply Hfailed; vm_compute; discriminate.
Defined.

(** Two segments, joined by one space (each text of the toy model begins
    with a space of its own). *)
Lemma nativeTranscribe_joins_segments_witness :
  fst (nativeTranscribe (java "/sdcard/speech.wav") (java "/data/ggml-tiny.bin") world0)
  = Some (NewStringUTF (lit " hello" ++ lit " " ++ lit " world")).
Proof.
  destruct (nativeTranscribe_joins_segments world0
              (java "/sdcard/speech.wav") (java "/data/ggml-tiny.bin")
              [lit " hello"; lit " world"]) as [Hjoined _].
  - vm_compute. discriminate.
  - vm_compute. discriminate.
  - vm_compute. reflexivity.
  - vm_compute. reflexivity.
  - intros [|[|i]] t Ht; cbn in Ht; try discriminate;
      injection Ht as <-; vm_compute; reflexivity.
  - rewrite Hjoined. vm_compute. reflexivity.
Defined.

(** The array of three samples after a transcription on the loaded
    context. *)
Lemma fullTranscribe_array_unchanged_witness :
  jheap (after (fullTranscribe 4096 4 50) world1) !! 50 = Some samples0
  /\ jheap (after (fullTranscribe 4096 4 50) world1) = jheap world1.
Proof.
  destruct (fullTranscribe_array_unchanged world1 4096 4 50 samples0)
    as (_ & Hheap & Harray & _).
  - discriminate.
  - vm_compute. reflexivity.
  - split; [exact Harray | exact Hheap].
Defined.

(** The model asset, the empty asset and the asset without a buffer: each
    is closed once. *)
Lemma asset_closed_exactly_once_witness :
  asset_closes (trace (snd (initContextFromAsset 7 (java "models/ggml-tiny.bin") world0)))
  = [EvAssetClose 200]
  /\ asset_closes (trace (snd (initContextFromAsset 7 (java "models/empty.bin") world0)))
     = [EvAssetClose 201]
  /\ asset_closes (trace (snd (initContextFromAsset 7 (java "models/unmapped.bin") world0)))
     = [EvAssetClose 202]
  /\ asset_closes (trace (snd (initContextFromAsset 7 (java "models/absent.bin") world0)))
     = [].
Proof.
  split; [|split; [|split]].
  - destruct (asset_closed_exactly_once world0 7 (java "models/ggml-tiny.bin"))
      as [Hopened _].
    destruct Hopened as (handle & _ & Hclosed & _);
      [vm_compute; discriminate | vm_compute; discriminate | exact Hclosed].
  - destruct (asset_closed_exactly_once world0 7 (java "models/empty.bin"))
      as [Hopened _].
    destruct Hopened as (handle & _ & Hclosed & _);
      [vm_compute; discriminate | vm_compute; discriminate | exact Hclosed].
  - destruct (asset_closed_exactly_once world0 7 (java "models/unmapped.bin"))
      as [Hopened _].
    destruct Hopened as (handle & _ & Hclosed & _);
      [vm_compute; discriminate | vm_compute; discriminate | exact Hclosed].
  - destruct (asset_closed_exactly_once world0 7 (java "models/absent.bin"))
      as [_ Hnothing].
    destruct Hnothing as (_ & Hclosed & _); [right; vm_compute; reflexivity | exact Hclosed].
Defined.



(** A surrogate without its partner is not a character: the inbound
    conversion replaces it by a question mark. *)
Example lone_surrogate_is_replaced :
  well_formed_utf16 [0xD83D] = false
  /\ jstring2string (Some [0xD83D]) = [x3f]
  /\ NewStringUTF (jstring2string (Some [0xD83D])) = [0x3F].
Proof. vm_compute. repeat split. Qed.

(* ===================================================================== *)
(** ** More on the PCM reader *)
(* ===================================================================== *)

Lemma fread_loop_app (a b : list byte) :
  Nat.Even (length a) ->
  fread_loop (a ++ b) = fread_loop a ++ fread_loop b.
Proof.
  assert (H : forall (n : nat) (l : list byte),
             (length l < n)%nat -> Nat.Even (length l) ->
             fread_loop (l ++ b) = fread_loop l ++ fread_loop b).
  { induction n as [|n IH]; intros l Hlen Heven; [lia|].
    destruct l as [|lo [|hi rest]].
    - reflexivity.
    - destruct Heven as [k Hk]. cbn [length] in Hk. lia.
    - cbn [app fread_loop]. f_equal. apply IH.
      + cbn [length] in Hlen. lia.
      + destruct Heven as [k Hk]. cbn [length] in Hk. exists (k - 1)%nat. lia. }
  apply (H (S (length a))). lia.
Qed.

Lemma fseek_past_header (header data : list byte) :
  length header = wav_header_size ->
  fseek_set wav_header_size (header ++ data) = data.
Proof.
  intros Hlen. unfold fseek_set. rewrite <- Hlen.
  rewrite List.skipn_app, List.skipn_all, Nat.sub_diag. reflexivity.
Qed.

Lemma read_wav_after_header {engine : WhisperEngine} (w : World)
    (fname : std_string) (header data : list byte) :
  length header = 44%nat ->
  files w (c_str fname) = Some (header ++ data) ->
  fst (read_wav fname w) = Some (fread_loop data).
Proof.
  intros Hlen Hfile. rewrite (read_wav_opened w fname _ Hfile). cbn [fst].
  unfold pcm_of_file. rewrite fseek_past_header by exact Hlen. reflexivity.
Qed.

(** X7.  The reader does not look at the header: two files that differ only
    in their first 44 bytes give the same samples, those of the bytes
    that follow. *)
Theorem read_wav_ignores_header {engine : WhisperEngine} (w1 w2 : World)
    (fname1 fname2 : std_string) (header1 header2 data : list byte) :
  length header1 = 44%nat ->
  length header2 = 44%nat ->
  files w1 (c_str fname1) = Some (header1 ++ data) ->
  files w2 (c_str fname2) = Some (header2 ++ data) ->
  fst (read_wav fname1 w1) = fst (read_wav fname2 w2)
  /\ fst (read_wav fname1 w1) = Some (fread_loop data).
Proof.
  intros Hlen1 Hlen2 Hfile1 Hfile2.
  rewrite (read_wav_after_header w1 fname1 header1 data Hlen1 Hfile1).
  rewrite (read_wav_after_header w2 fname2 header2 data Hlen2 Hfile2).
  split; reflexivity.
Qed.

(** X8.  Bytes added to a file that ends on a sample boundary add their
    samples after those of the file; one byte added adds nothing. *)
Theorem pcm_of_file_app (content more : list byte) :
  (44 <= length content)%nat ->
  Nat.Even (length content - 44) ->
  pcm_of_file (content ++ more) = pcm_of_file content ++ fread_loop more
  /\ forall b : byte, pcm_of_file (content ++ [b]) = pcm_of_file content.
Proof.
  intros Hlen Heven.
  assert (Happ : forall l : list byte,
             pcm_of_file (content ++ l) = pcm_of_file content ++ fread_loop l).
  { intros l. unfold pcm_of_file, fseek_set, wav_header_size.
    rewrite List.skipn_app.
    replace (44 - length content)%nat with 0%nat by lia. cbn [skipn].
    apply fread_loop_app. rewrite List.length_skipn. exact Heven. }
  split; [apply Happ|].
  intros b. rewrite Happ. cbn [fread_loop]. apply app_nil_r.
Qed.

Lemma int16_of_to_bytes (sample : Z) :
  -32768 <= sample <= 32767 ->
  int16_of_bytes (byte_of_Z sample) (byte_of_Z (sample / 256)) = sample.
Proof.
  intros Hs. unfold int16_of_bytes. rewrite !byte_to_of_Z. cbv zeta.
  destruct (Z.ltb_spec (sample mod 256 + 256 * ((sample / 256) mod 256)) 32768); euclid.
Qed.

Lemma fread_loop_of_samples (samples : list Z) :
  Forall (fun sample => -32768 <= sample <= 32767) samples ->
  fread_loop (List.flat_map int16_to_bytes samples) = map normalise samples.
Proof.
  induction 1 as [|sample rest Hs _ IH]; [reflexivity|].
  cbn [List.flat_map int16_to_bytes app fread_loop map].
  rewrite int16_of_to_bytes by exact Hs. rewrite IH. reflexivity.
Qed.

(** X9.  Reading undoes writing: a file made of any 44 bytes followed by the
    little-endian bytes of 16-bit samples reads back as those samples,
    each divided by 32768, in order. *)
Theorem read_wav_of_written_samples {engine : WhisperEngine} (w : World)
    (fname : std_string) (header : list byte) (samples : list Z) :
  length header = 44%nat ->
  Forall (fun sample => -32768 <= sample <= 32767) samples ->
  files w (c_str fname) = Some (header ++ List.flat_map int16_to_bytes samples) ->
  fst (read_wav fname w) = Some (map normalise samples).
Proof.
  intros Hlen Hrange Hfile.
  rewrite (read_wav_after_header w fname header _ Hlen Hfile).
  rewrite fread_loop_of_samples by exact Hrange. reflexivity.
Qed.

(** The conversion of the sample count to [int]: the count itself below
    2^31, and always a 32-bit value congruent to it. *)
Lemma int_of_size_t_spec (n : Z) :
  -2147483648 <= int_of_size_t n < 2147483648
  /\ (int_of_size_t n - n) mod 4294967296 = 0
  /\ (0 <= n < 2147483648 -> int_of_size_t n = n).
Proof.
  unfold int_of_size_t. cbv zeta.
  destruct (Z.ltb_spec (n mod 4294967296) 2147483648); repeat split; euclid.
Qed.

(* ===================================================================== *)
(** ** More on the entry points *)
(* ===================================================================== *)

Section BridgeExtras.

Context {engine : WhisperEngine} {runtime : AndroidRuntime}.

Implicit Types (w : World) (e : Event).

Ltac same_world :=
  apply world_ext;
  cbn [engine_mem files jheap open_assets trace record extend set_open_assets
         set_engine_mem set_jheap remove_first];
  rewrite ?Z.eqb_refl, <- ?app_assoc, ?app_nil_r; reflexivity.

Lemma bridge_frame_refl w : bridge_frame w w.
Proof.
  repeat split. exists []. symmetry. apply app_nil_r.
Qed.

Lemma bridge_frame_extend (evs : list Event) (m : engine_memory) w :
  bridge_frame w (extend evs (set_engine_mem m w)).
Proof.
  repeat split. exists evs. reflexivity.
Qed.

Lemma bridge_frame_eq w w' (evs : list Event) (m : engine_memory) :
  w' = extend evs (set_engine_mem m w) -> bridge_frame w w'.
Proof. intros ->. apply bridge_frame_extend. Qed.

(** The loop over the segments adds text queries and nothing else. *)
Lemma segment_loop_world (ctx n_segments : Z) (todo : nat) :
  forall (i : Z) (result : std_string) w,
  exists evs : list Event,
    snd (segment_loop ctx n_segments i todo result w) = extend evs w
    /\ forallb is_text_query evs = true.
Proof.
  induction todo as [|todo IH]; intros i result w.
  - exists []. cbn [segment_loop]. unfold ret. cbn [snd]. split; [same_world | reflexivity].
  - cbn [segment_loop]. unfold bind, call_get_segment_text. cbn [engine_mem record].
    destruct (whisper_full_get_segment_text ctx i (engine_mem w)) as [t|].
    + match goal with
      | |- context [segment_loop _ _ ?j _ ?acc ?w1] =>
          destruct (IH j acc w1) as (evs & Hw & Hq)
      end.
      exists (EvGetSegmentText ctx i :: evs). rewrite Hw.
      split; [same_world|]. cbn [forallb is_text_query andb]. exact Hq.
    + exists [EvGetSegmentText ctx i]. cbn [snd]. split; [same_world | reflexivity].
Qed.

Lemma only_text_queries (evs : list Event) :
  forallb is_text_query evs = true ->
  free_calls evs = [] /\ full_calls evs = [] /\ fopen_calls evs = []
  /\ fclose_calls evs = [] /\ engine_calls evs = evs.
Proof.
  induction evs as [|e evs IH]; [repeat split|].
  cbn [forallb]. intros Hq. apply andb_true_iff in Hq as [He Hq].
  destruct (IH Hq) as (H1 & H2 & H3 & H4 & H5).
  destruct e; try discriminate.
  unfold free_calls, full_calls, fopen_calls, fclose_calls, engine_calls in *.
  cbn [List.filter is_free is_full is_fopen is_fclose is_engine_call].
  rewrite H1, H2, H3, H4, H5. repeat split.
Qed.

(** The success path of the legacy entry point, with the loop summed up:
    either a null text stops it, or it returns after the release. *)
Lemma nativeTranscribe_success_world w (audioPath modelPath : option java_string)
    (ctx : Z) (m1 m2 : engine_memory) :
  let audio_path := jstring2string audioPath in
  let model_path := jstring2string modelPath in
  let pcmf32 := audio_of w audio_path in
  let n_segments := whisper_full_n_segments ctx m2 in
  let before_loop :=
    load_events audio_path model_path ++ read_events w audio_path
    ++ full_events ctx pcmf32
    ++ [EvNSegments ctx; EvLog ANDROID_LOG_INFO "Found %d segments" [ArgInt n_segments]] in
  whisper_init_from_file_with_params (c_str model_path) whisper_context_default_params
    (engine_mem w) = (ctx, m1) ->
  ctx <> 0 ->
  pcmf32 <> [] ->
  whisper_full ctx nativeTranscribe_wparams pcmf32
    (int_of_size_t (Z.of_nat (length pcmf32))) m1 = (0, m2) ->
  exists queries : list Event,
    forallb is_text_query queries = true
    /\ ((fst (nativeTranscribe audioPath modelPath w) = None
         /\ snd (nativeTranscribe audioPath modelPath w)
            = extend (before_loop ++ queries) (set_engine_mem m2 w))
        \/ (exists transcription : std_string,
              fst (nativeTranscribe audioPath modelPath w)
              = Some (NewStringUTF transcription)
              /\ snd (nativeTranscribe audioPath modelPath w)
                 = extend (before_loop ++ queries
                           ++ [EvFree ctx;
                               EvLog ANDROID_LOG_INFO "Transcription complete: %s"
                                 [ArgStr (c_str transcription)]])
                     (set_engine_mem (whisper_free ctx m2) w))).
Proof.
  cbv zeta. intros Hinit Hctx Hpcm Hfull.
  rewrite (nativeTranscribe_processed w audioPath modelPath ctx m1 m2 Hinit Hctx Hpcm Hfull).
  match goal with
  | |- context [segment_loop ctx ?n 0 ?todo [] ?w3] =>
      destruct (segment_loop_world ctx n todo 0 [] w3) as (evs & Hw & Hq);
      destruct (segment_loop ctx n 0 todo [] w3) as [[transcription|] w'] eqn:Hloop
  end; cbn [fst snd] in *; subst w'; exists evs; (split; [exact Hq|]).
  - right. exists transcription. split; [reflexivity|]. same_world.
  - left. split; [reflexivity|]. same_world.
Qed.

Lemma bridge_frame_extend_only (evs : list Event) w : bridge_frame w (extend evs w).
Proof. repeat split. exists evs. reflexivity. Qed.

Lemma engine_calls_extend (evs : list Event) w :
  engine_calls (trace (extend evs w)) = engine_calls (trace w) ++ engine_calls evs.
Proof. unfold engine_calls. rewrite trace_extend. apply List.filter_app. Qed.

Lemma fclose_calls_extend (evs : list Event) w :
  fclose_calls (trace (extend evs w)) = fclose_calls (trace w) ++ fclose_calls evs.
Proof. unfold fclose_calls. rewrite trace_extend. apply List.filter_app. Qed.

Lemma text_queries_extend (evs : list Event) w :
  text_queries (trace (extend evs w)) = text_queries (trace w) ++ text_queries evs.
Proof. unfold text_queries. rewrite trace_extend. apply List.filter_app. Qed.

Lemma text_queries_app (a b : list Event) :
  text_queries (a ++ b) = text_queries a ++ text_queries b.
Proof. apply List.filter_app. Qed.

Lemma engine_calls_app (a b : list Event) :
  engine_calls (a ++ b) = engine_calls a ++ engine_calls b.
Proof. apply List.filter_app. Qed.

Lemma read_events_no_query w (fname : std_string) :
  text_queries (read_events w fname) = [].
Proof. unfold read_events. destruct (files w (c_str fname)); reflexivity. Qed.

(** Exact outcome of context creation from a file. *)
Lemma initContext_outcome w (modelPath : option java_string) (ctx : Z) (m : engine_memory) :
  let model_path := jstring2string modelPath in
  whisper_init_from_file_with_params (c_str model_path) whisper_context_default_params
    (engine_mem w) = (ctx, m) ->
  initContext modelPath w
  = (Some ctx,
     extend [EvLog ANDROID_LOG_INFO "Initializing Whisper context with model: %s"
               [ArgStr (c_str model_path)];
             EvInitFromFile (c_str model_path);
             if ctx =? 0
             then EvLog ANDROID_LOG_ERROR "Failed to load model from: %s"
                    [ArgStr (c_str model_path)]
             else EvLog ANDROID_LOG_INFO "Whisper context initialized successfully" []]
       (set_engine_mem m w)).
Proof.
  cbv zeta. intros Hinit.
  unfold Java_com_memexos_app_whisper_WhisperService_initContext, bind, LOGI, LOGE, emit,
    ret, call_init_from_file.
  cbn beta. cbn [engine_mem record]. rewrite Hinit.
  destruct (Z.eqb_spec ctx 0) as [->|Hctx]; f_equal; same_world.
Qed.

(** X5.  After a transcription on a live handle and array, the engine memory
    is the one the engine's transcription left, whatever its status, and
    the queries read from it.  The transcription itself returns nothing:
    a failure of the engine shows only in the log. *)
Theorem fullTranscribe_then_queries w (contextPtr numThreads audioData index : Z)
    (samples : list jfloat) :
  contextPtr <> 0 ->
  jheap w !! audioData = Some samples ->
  let processed := whisper_full contextPtr (fullTranscribe_wparams numThreads) samples
                     (Z.of_nat (length samples)) (engine_mem w) in
  let w' := after (fullTranscribe contextPtr numThreads audioData) w in
  fst (fullTranscribe contextPtr numThreads audioData w) = Some tt
  /\ engine_mem w' = snd processed
  /\ fst (getTextSegmentCount contextPtr w')
     = Some (whisper_full_n_segments contextPtr (snd processed))
  /\ fst (getTextSegment contextPtr index w')
     = Some (match whisper_full_get_segment_text contextPtr index (snd processed) with
             | None => []
             | Some text => NewStringUTF text
             end).
Proof.
  intros Hctx Harr. cbv zeta. unfold after.
  destruct (whisper_full contextPtr (fullTranscribe_wparams numThreads) samples
              (Z.of_nat (length samples)) (engine_mem w)) as [status m] eqn:Hfull.
  rewrite (fullTranscribe_valid w _ _ _ samples status m Hctx Harr Hfull).
  cbn [fst snd]. split; [reflexivity|]. split; [reflexivity|].
  unfold Java_com_memexos_app_whisper_WhisperService_getTextSegmentCount,
    Java_com_memexos_app_whisper_WhisperService_getTextSegment.
  apply Z.eqb_neq in Hctx. rewrite Hctx.
  unfold bind, call_n_segments, call_get_segment_text, ret.
  cbn [fst snd engine_mem record set_engine_mem].
  split; [reflexivity|].
  destruct (whisper_full_get_segment_text contextPtr index m); reflexivity.
Qed.

(** X6.  The reader closes the file it opened, once, and closes nothing when
    the open failed; it makes no call into the engine. *)
Theorem read_wav_closes_what_it_opens w (fname : std_string) :
  let w' := after (read_wav fname) w in
  let opened := bool_decide (is_Some (files w (c_str fname))) in
  fopen_calls (trace w') = fopen_calls (trace w) ++ [EvFopen (c_str fname) opened]
  /\ fclose_calls (trace w')
     = fclose_calls (trace w) ++ (if opened then [EvFclose (c_str fname)] else [])
  /\ engine_calls (trace w') = engine_calls (trace w)
  /\ engine_mem w' = engine_mem w
  /\ bridge_frame w w'.
Proof.
  cbv zeta. unfold after. rewrite read_wav_outcome. cbn [snd].
  rewrite fopen_calls_extend, fclose_calls_extend, engine_calls_extend.
  unfold read_events.
  destruct (files w (c_str fname)) as [content|]; cbn;
    rewrite ?app_nil_r; repeat split; apply bridge_frame_extend_only.
Qed.

(** X11.  Whenever the model loaded and samples were read, the legacy entry
    point calls the engine's transcription exactly once, with the samples
    read, the legacy parameters and the number of samples as an [int]
    (the number itself below 2^31); this holds for every status. *)
Theorem nativeTranscribe_transcribes_once w (audioPath modelPath : option java_string) :
  let audio_path := jstring2string audioPath in
  let model_path := jstring2string modelPath in
  let loaded := whisper_init_from_file_with_params (c_str model_path)
                  whisper_context_default_params (engine_mem w) in
  let ctx := fst loaded in
  let pcmf32 := audio_of w audio_path in
  let n_samples := int_of_size_t (Z.of_nat (length pcmf32)) in
  ctx <> 0 ->
  pcmf32 <> [] ->
  full_calls (trace (snd (nativeTranscribe audioPath modelPath w)))
  = full_calls (trace w) ++ [EvFull ctx nativeTranscribe_wparams pcmf32 n_samples]
  /\ (Z.of_nat (length pcmf32) < 2147483648 -> n_samples = Z.of_nat (length pcmf32)).
Proof.
  cbv zeta.
  destruct (whisper_init_from_file_with_params _ _ _) as [ctx m1] eqn:Hinit.
  cbn [fst snd]. intros Hctx Hpcm.
  split; [|intros Hsmall; apply int_of_size_t_spec; lia].
  destruct (whisper_full ctx nativeTranscribe_wparams
              (audio_of w (jstring2string audioPath))
              (int_of_size_t (Z.of_nat (length (audio_of w (jstring2string audioPath)))))
              m1) as [status m2] eqn:Hfull.
  destruct (read_events_quiet w (jstring2string audioPath)) as (_ & _ & Hread).
  destruct (Z.eq_dec status 0) as [->|Hstatus].
  - destruct (nativeTranscribe_success_world w audioPath modelPath ctx m1 m2
                Hinit Hctx Hpcm Hfull) as (queries & Hq & [[_ Hw] | (t & _ & Hw)]);
      rewrite Hw; destruct (only_text_queries queries Hq) as (_ & Hfullq & _);
      rewrite full_calls_extend, !full_calls_app, Hread, Hfullq; cbn;
      rewrite ?app_nil_r; reflexivity.
  - rewrite (nativeTranscribe_processing_failure w audioPath modelPath ctx status m1 m2
               Hinit Hctx Hpcm Hfull Hstatus).
    cbn [snd]. rewrite full_calls_extend, !full_calls_app, Hread. reflexivity.
Qed.

(** X12.  When the engine succeeds and reports no segment, or a negative
    number of them, the legacy entry point queries no text, releases the
    context and returns the empty string. *)
Theorem nativeTranscribe_no_segments w (audioPath modelPath : option java_string) :
  let audio_path := jstring2string audioPath in
  let model_path := jstring2string modelPath in
  let loaded := whisper_init_from_file_with_params (c_str model_path)
                  whisper_context_default_params (engine_mem w) in
  let ctx := fst loaded in
  let pcmf32 := audio_of w audio_path in
  let processed := whisper_full ctx nativeTranscribe_wparams pcmf32
                     (int_of_size_t (Z.of_nat (length pcmf32))) (snd loaded) in
  let r := nativeTranscribe audioPath modelPath w in
  ctx <> 0 ->
  pcmf32 <> [] ->
  fst processed = 0 ->
  whisper_full_n_segments ctx (snd processed) <= 0 ->
  fst r = Some []
  /\ text_queries (trace (snd r)) = text_queries (trace w)
  /\ free_calls (trace (snd r)) = free_calls (trace w) ++ [EvFree ctx].
Proof.
  cbv zeta.
  destruct (whisper_init_from_file_with_params _ _ _) as [ctx m1] eqn:Hinit.
  cbn [fst snd].
  destruct (whisper_full _ _ _ _ _) as [status m2] eqn:Hfull. cbn [fst snd].
  intros Hctx Hpcm -> Hn.
  rewrite (nativeTranscribe_processed w audioPath modelPath ctx m1 m2 Hinit Hctx Hpcm Hfull).
  replace (Z.to_nat (whisper_full_n_segments ctx m2)) with 0%nat by lia.
  cbn [segment_loop]. unfold ret. cbn [fst snd].
  split; [reflexivity|].
  rewrite text_queries_extend, free_calls_extend. cbn [set_engine_mem trace].
  rewrite text_queries_extend, free_calls_extend.
  rewrite !text_queries_app, !free_calls_app, read_events_no_query.
  destruct (read_events_quiet w (jstring2string audioPath)) as (-> & _ & _).
  cbn. rewrite !app_nil_r. split; reflexivity.
Qed.

(** X13.  Whenever the legacy entry point returns after a successful load, the
    release of the context is its last call into the engine: no release
    precedes it and nothing but logging follows it, so the context is
    never used after it has been released. *)
Theorem nativeTranscribe_release_is_last w (audioPath modelPath : option java_string) :
  let model_path := jstring2string modelPath in
  let ctx := fst (whisper_init_from_file_with_params (c_str model_path)
                    whisper_context_default_params (engine_mem w)) in
  let r := nativeTranscribe audioPath modelPath w in
  ctx <> 0 ->
  is_Some (fst r) ->
  exists before following : list Event,
    trace (snd r) = trace w ++ before ++ EvFree ctx :: following
    /\ free_calls before = []
    /\ engine_calls following = [].
Proof.
  cbv zeta.
  destruct (whisper_init_from_file_with_params _ _ _) as [ctx m1] eqn:Hinit.
  cbn [fst]. intros Hctx Hreturns.
  destruct (read_events_quiet w (jstring2string audioPath)) as (Hread & _ & _).
  set (loading := load_events (jstring2string audioPath) (jstring2string modelPath)).
  set (reading := read_events w (jstring2string audioPath)).
  fold reading in Hread.
  destruct (audio_of w (jstring2string audioPath)) as [|x pcm] eqn:Haudio.
  { rewrite (nativeTranscribe_audio_failure w audioPath modelPath ctx m1 Hinit Hctx Haudio).
    cbn [snd]. rewrite trace_extend. cbn [trace set_engine_mem].
    fold loading reading.
    exists (loading ++ reading), []. split; [rewrite <- !app_assoc; reflexivity|].
    rewrite free_calls_app, Hread. split; reflexivity. }
  assert (Hpcm : audio_of w (jstring2string audioPath) <> [])
    by (rewrite Haudio; discriminate).
  clear Haudio.
  destruct (whisper_full ctx nativeTranscribe_wparams
              (audio_of w (jstring2string audioPath))
              (int_of_size_t (Z.of_nat (length (audio_of w (jstring2string audioPath)))))
              m1) as [status m2] eqn:Hfull.
  set (transcribing := full_events ctx (audio_of w (jstring2string audioPath))).
  destruct (Z.eq_dec status 0) as [->|Hstatus].
  - destruct (nativeTranscribe_success_world w audioPath modelPath ctx m1 m2
                Hinit Hctx Hpcm Hfull) as (queries & Hq & [[Hnone _] | (t & _ & Hw)]).
    { rewrite Hnone in Hreturns. destruct Hreturns as [? [=]]. }
    rewrite Hw. rewrite trace_extend. cbn [trace set_engine_mem].
    fold loading reading transcribing.
    destruct (only_text_queries queries Hq) as (Hfreeq & _).
    exists ((loading ++ reading ++ transcribing
             ++ [EvNSegments ctx;
                 EvLog ANDROID_LOG_INFO "Found %d segments"
                   [ArgInt (whisper_full_n_segments ctx m2)]]) ++ queries),
           [EvLog ANDROID_LOG_INFO "Transcription complete: %s" [ArgStr (c_str t)]].
    split; [rewrite <- !app_assoc; reflexivity|].
    rewrite !free_calls_app, Hread, Hfreeq. split; reflexivity.
  - rewrite (nativeTranscribe_processing_failure w audioPath modelPath ctx status m1 m2
               Hinit Hctx Hpcm Hfull Hstatus).
    cbn [snd]. rewrite trace_extend. cbn [trace set_engine_mem].
    fold loading reading transcribing.
    exists (loading ++ reading ++ transcribing
            ++ [EvLog ANDROID_LOG_ERROR "Failed to process audio" []]), [].
    split; [rewrite <- !app_assoc; reflexivity|].
    rewrite !free_calls_app, Hread. split; reflexivity.
Qed.

Ltac frame_by_trace :=
  unfold bridge_frame;
  split; [reflexivity|split; [reflexivity|split; [reflexivity|]]];
  eexists;
  cbn [trace record extend set_engine_mem set_open_assets set_jheap];
  rewrite <- ?app_assoc; reflexivity.

Lemma bridge_frame_record e w : bridge_frame w (record e w).
Proof. repeat split. exists [e]. reflexivity. Qed.

Lemma bridge_frame_set_engine_mem (m : engine_memory) w :
  bridge_frame w (set_engine_mem m w).
Proof. repeat split. exists []. symmetry. apply app_nil_r. Qed.

Lemma bridge_frame_trans w1 w2 w3 :
  bridge_frame w1 w2 -> bridge_frame w2 w3 -> bridge_frame w1 w3.
Proof.
  intros (Hf & Hh & Ha & evs & Ht) (Hf' & Hh' & Ha' & evs' & Ht').
  repeat split; try congruence.
  exists (evs ++ evs'). rewrite Ht', Ht. symmetry. apply app_assoc.
Qed.

Lemma initContextFromAsset_frame w (assetManager : Z) (assetPath : option java_string) :
  bridge_frame w (snd (initContextFromAsset assetManager assetPath w)).
Proof.
  set (path := c_str (jstring2string assetPath)).
  set (mgr := AAssetManager_fromJava assetManager).
  set (asset := AAssetManager_open mgr path AASSET_MODE_BUFFER).
  destruct (Z.eq_dec mgr 0) as [Hmgr|Hmgr].
  { rewrite (initContextFromAsset_no_manager w assetManager assetPath Hmgr).
    apply bridge_frame_extend_only. }
  destruct (Z.eq_dec asset 0) as [Hasset|Hasset].
  { rewrite (initContextFromAsset_not_opened w assetManager assetPath Hmgr Hasset).
    apply bridge_frame_extend_only. }
  destruct (AAsset_getBuffer asset) as [data|] eqn:Hbuf;
    [destruct (Z.lt_ge_cases 0 (AAsset_getLength asset)) as [Hpos|Hle]|].
  - destruct (whisper_init_from_buffer_with_params data (AAsset_getLength asset)
                whisper_context_default_params (engine_mem w)) as [ctx m] eqn:Hinit.
    rewrite (initContextFromAsset_loaded w assetManager assetPath data ctx m
               Hmgr Hasset Hbuf Hpos Hinit).
    apply bridge_frame_extend.
  - rewrite (initContextFromAsset_no_data w assetManager assetPath Hmgr Hasset)
      by (right; exact Hle).
    apply bridge_frame_extend_only.
  - rewrite (initContextFromAsset_no_data w assetManager assetPath Hmgr Hasset)
      by (left; exact Hbuf).
    apply bridge_frame_extend_only.
Qed.

Lemma fullTranscribe_frame w (contextPtr numThreads audioData : Z) :
  bridge_frame w (snd (fullTranscribe contextPtr numThreads audioData w)).
Proof.
  destruct (Z.eq_dec contextPtr 0) as [->|Hctx].
  { apply bridge_frame_record. }
  destruct (jheap w !! audioData) as [samples|] eqn:Harr.
  - destruct (whisper_full contextPtr (fullTranscribe_wparams numThreads) samples
                (Z.of_nat (length samples)) (engine_mem w)) as [status m] eqn:Hfull.
    rewrite (fullTranscribe_valid w _ _ _ samples status m Hctx Harr Hfull). cbn [snd].
    frame_by_trace.
  - unfold Java_com_memexos_app_whisper_WhisperService_fullTranscribe.
    apply Z.eqb_neq in Hctx. rewrite Hctx.
    unfold bind, GetFloatArrayElements. rewrite Harr. apply bridge_frame_refl.
Qed.

Lemma nativeTranscribe_frame w (audioPath modelPath : option java_string) :
  bridge_frame w (snd (nativeTranscribe audioPath modelPath w)).
Proof.
  destruct (whisper_init_from_file_with_params (c_str (jstring2string modelPath))
              whisper_context_default_params (engine_mem w)) as [ctx m1] eqn:Hinit.
  destruct (Z.eq_dec ctx 0) as [->|Hctx].
  { rewrite (nativeTranscribe_model_failure w audioPath modelPath m1 Hinit).
    apply bridge_frame_extend. }
  destruct (audio_of w (jstring2string audioPath)) as [|x pcm] eqn:Haudio.
  { rewrite (nativeTranscribe_audio_failure w audioPath modelPath ctx m1 Hinit Hctx Haudio).
    apply bridge_frame_extend. }
  assert (Hpcm : audio_of w (jstring2string audioPath) <> [])
    by (rewrite Haudio; discriminate).
  clear Haudio.
  destruct (whisper_full ctx nativeTranscribe_wparams
              (audio_of w (jstring2string audioPath))
              (int_of_size_t (Z.of_nat (length (audio_of w (jstring2string audioPath)))))
              m1) as [status m2] eqn:Hfull.
  destruct (Z.eq_dec status 0) as [->|Hstatus].
  - destruct (nativeTranscribe_success_world w audioPath modelPath ctx m1 m2
                Hinit Hctx Hpcm Hfull) as (queries & _ & [[_ Hw] | (t & _ & Hw)]);
      rewrite Hw; apply bridge_frame_extend.
  - rewrite (nativeTranscribe_processing_failure w audioPath modelPath ctx status m1 m2
               Hinit Hctx Hpcm Hfull Hstatus).
    apply bridge_frame_extend.
Qed.

(** X10.  No entry point writes to the file system, to a Java array or to the
    set of open assets, and none removes a call from the trace: whatever
    the arguments, and also when a call does not return, the world
    afterwards differs from the one before in the engine memory and in
    calls added at the end of the trace only. *)
Theorem entry_points_frame w (path audioPath modelPath : option java_string)
    (assetManager contextPtr numThreads audioData index : Z) :
  bridge_frame w (snd (initContext path w))
  /\ bridge_frame w (snd (initContextFromAsset assetManager path w))
  /\ bridge_frame w (snd (freeContext contextPtr w))
  /\ bridge_frame w (snd (fullTranscribe contextPtr numThreads audioData w))
  /\ bridge_frame w (snd (getTextSegmentCount contextPtr w))
  /\ bridge_frame w (snd (getTextSegment contextPtr index w))
  /\ bridge_frame w (snd (nativeTranscribe audioPath modelPath w))
  /\ bridge_frame w (snd (nativeInit w))
  /\ bridge_frame w (snd (nativeCleanup w)).
Proof.
  split; [|split; [|split; [|split; [|split; [|split; [|split; [|split]]]]]]].
  - destruct (whisper_init_from_file_with_params (c_str (jstring2string path))
                whisper_context_default_params (engine_mem w)) as [ctx m] eqn:Hinit.
    rewrite (initContext_outcome w path ctx m Hinit). apply bridge_frame_extend.
  - apply initContextFromAsset_frame.
  - unfold Java_com_memexos_app_whisper_WhisperService_freeContext.
    destruct (negb (contextPtr =? 0)).
    + unfold bind, call_free, LOGI, emit. cbn [snd]. frame_by_trace.
    + apply bridge_frame_refl.
  - apply fullTranscribe_frame.
  - unfold Java_com_memexos_app_whisper_WhisperService_getTextSegmentCount.
    destruct (contextPtr =? 0); apply bridge_frame_record.
  - unfold Java_com_memexos_app_whisper_WhisperService_getTextSegment.
    destruct (contextPtr =? 0); apply bridge_frame_record.
  - apply nativeTranscribe_frame.
  - apply bridge_frame_record.
  - apply bridge_frame_record.
Qed.

(** X14.  Context creation from an asset always returns.  A nonzero result is
    the pointer the engine's buffer load returned, and is obtained only
    with an asset manager, an opened asset, a buffer and a positive
    length.  Without one of these the result is the zero handle, and the
    engine is not called. *)
Theorem initContextFromAsset_handle w (assetManager : Z) (assetPath : option java_string) :
  let path := c_str (jstring2string assetPath) in
  let mgr := AAssetManager_fromJava assetManager in
  let asset := AAssetManager_open mgr path AASSET_MODE_BUFFER in
  let size := AAsset_getLength asset in
  let r := initContextFromAsset assetManager assetPath w in
  is_Some (fst r)
  /\ (forall handle : Z,
        fst r = Some handle -> handle <> 0 ->
        mgr <> 0 /\ asset <> 0 /\ 0 < size
        /\ exists data : list byte,
             AAsset_getBuffer asset = Some data
             /\ handle = fst (whisper_init_from_buffer_with_params data size
                                whisper_context_default_params (engine_mem w)))
  /\ (mgr = 0 \/ asset = 0 \/ AAsset_getBuffer asset = None \/ size <= 0 ->
        fst r = Some 0
        /\ engine_mem (snd r) = engine_mem w
        /\ engine_calls (trace (snd r)) = engine_calls (trace w)).
Proof.
  cbv zeta.
  set (path := c_str (jstring2string assetPath)).
  set (mgr := AAssetManager_fromJava assetManager).
  set (asset := AAssetManager_open mgr path AASSET_MODE_BUFFER).
  set (size := AAsset_getLength asset).
  assert (Hquiet : forall evs : list Event,
             engine_calls evs = [] ->
             engine_calls (trace (extend evs w)) = engine_calls (trace w)).
  { intros evs Hevs. rewrite engine_calls_extend, Hevs. apply app_nil_r. }
  destruct (Z.eq_dec mgr 0) as [Hmgr|Hmgr].
  { rewrite (initContextFromAsset_no_manager w assetManager assetPath Hmgr). cbn [fst snd].
    split; [eexists; reflexivity|]. split.
    - intros handle [= <-] Hne. contradiction.
    - intros _. split; [reflexivity|]. split; [reflexivity|]. apply Hquiet. reflexivity. }
  destruct (Z.eq_dec asset 0) as [Hasset|Hasset].
  { rewrite (initContextFromAsset_not_opened w assetManager assetPath Hmgr Hasset).
    cbn [fst snd]. split; [eexists; reflexivity|]. split.
    - intros handle [= <-] Hne. contradiction.
    - intros _. split; [reflexivity|]. split; [reflexivity|]. apply Hquiet. reflexivity. }
  destruct (AAsset_getBuffer asset) as [data|] eqn:Hbuf;
    [destruct (Z.lt_ge_cases 0 size) as [Hpos|Hle]|].
  - destruct (whisper_init_from_buffer_with_params data size
                whisper_context_default_params (engine_mem w)) as [ctx m] eqn:Hinit.
    rewrite (initContextFromAsset_loaded w assetManager assetPath data ctx m
               Hmgr Hasset Hbuf Hpos Hinit).
    cbn [fst snd]. split; [eexists; reflexivity|]. split.
    + intros handle [= <-] Hne. repeat split; try assumption.
      exists data. rewrite Hinit. split; reflexivity.
    + intros [H|[H|[H|H]]]; [contradiction | contradiction | discriminate | lia].
  - rewrite (initContextFromAsset_no_data w assetManager assetPath Hmgr Hasset)
      by (right; exact Hle).
    cbn [fst snd]. split; [eexists; reflexivity|]. split.
    + intros handle [= <-] Hne. contradiction.
    + intros _. split; [reflexivity|]. split; [reflexivity|]. apply Hquiet. reflexivity.
  - rewrite (initContextFromAsset_no_data w assetManager assetPath Hmgr Hasset)
      by (left; exact Hbuf).
    cbn [fst snd]. split; [eexists; reflexivity|]. split.
    + intros handle [= <-] Hne. contradiction.
    + intros _. split; [reflexivity|]. split; [reflexivity|]. apply Hquiet. reflexivity.
Qed.

(** The transcription call of the legacy entry point, for every status
    and also when the loop meets a null text. *)
Lemma nativeTranscribe_full_call w (audioPath modelPath : option java_string)
    (ctx : Z) (m1 : engine_memory) :
  let pcmf32 := audio_of w (jstring2string audioPath) in
  whisper_init_from_file_with_params (c_str (jstring2string modelPath))
    whisper_context_default_params (engine_mem w) = (ctx, m1) ->
  ctx <> 0 ->
  pcmf32 <> [] ->
  full_calls (trace (snd (nativeTranscribe audioPath modelPath w)))
  = full_calls (trace w)
    ++ [EvFull ctx nativeTranscribe_wparams pcmf32
          (int_of_size_t (Z.of_nat (length pcmf32)))].
Proof.
  cbv zeta. intros Hinit Hctx Hpcm.
  destruct (whisper_full ctx nativeTranscribe_wparams
              (audio_of w (jstring2string audioPath))
              (int_of_size_t (Z.of_nat (length (audio_of w (jstring2string audioPath)))))
              m1) as [status m2] eqn:Hfull.
  destruct (read_events_quiet w (jstring2string audioPath)) as (_ & _ & Hread).
  destruct (Z.eq_dec status 0) as [->|Hstatus].
  - destruct (nativeTranscribe_success_world w audioPath modelPath ctx m1 m2
                Hinit Hctx Hpcm Hfull) as (queries & Hq & [[_ Hw] | (t & _ & Hw)]);
      rewrite Hw; destruct (only_text_queries queries Hq) as (_ & Hfullq & _);
      rewrite full_calls_extend, !full_calls_app, Hread, Hfullq; cbn;
      rewrite ?app_nil_r; reflexivity.
  - rewrite (nativeTranscribe_processing_failure w audioPath modelPath ctx status m1 m2
               Hinit Hctx Hpcm Hfull Hstatus).
    cbn [snd]. rewrite full_calls_extend, !full_calls_app, Hread. reflexivity.
Qed.

(** The transcription call of the primary entry point. *)
Lemma fullTranscribe_full_call w (contextPtr numThreads audioData : Z)
    (samples : list jfloat) :
  contextPtr <> 0 ->
  jheap w !! audioData = Some samples ->
  full_calls (trace (snd (fullTranscribe contextPtr numThreads audioData w)))
  = full_calls (trace w)
    ++ [EvFull contextPtr (fullTranscribe_wparams numThreads) samples
          (Z.of_nat (length samples))].
Proof.
  intros Hctx Harr.
  destruct (whisper_full contextPtr (fullTranscribe_wparams numThreads) samples
              (Z.of_nat (length samples)) (engine_mem w)) as [status m] eqn:Hfull.
  rewrite (fullTranscribe_valid w _ _ _ samples status m Hctx Harr Hfull).
  cbn [snd]. unfold full_calls. rewrite !trace_record. cbn [trace set_engine_mem].
  rewrite !trace_record, !filter_snoc.
  destruct (negb (status =? 0)); cbn; rewrite ?app_nil_r; reflexivity.
Qed.

(** C8.  The parameter struct each entry point hands to the engine's
    transcription.  On a live handle and array the primary entry point
    makes one transcription call, and with a model loaded and samples
    read the legacy entry point makes one; the structs of the two calls
    are the engine's defaults for greedy sampling with printing of
    progress, special tokens, realtime output and timestamps off, no
    translation, language "en", offset and duration 0, several segments
    allowed, token budget 0 and audio context 0.  They are equal field
    for field except for the thread count, which is the caller's value in
    the primary call and 4 in the legacy call. *)
Theorem entry_points_wparams_agree (w1 w2 : World)
    (contextPtr numThreads audioData : Z) (samples : list jfloat)
    (audioPath modelPath : option java_string) :
  let loaded := whisper_init_from_file_with_params (c_str (jstring2string modelPath))
                  whisper_context_default_params (engine_mem w2) in
  let pcmf32 := audio_of w2 (jstring2string audioPath) in
  let defaults := whisper_full_default_params WHISPER_SAMPLING_GREEDY in
  contextPtr <> 0 ->
  jheap w1 !! audioData = Some samples ->
  fst loaded <> 0 ->
  pcmf32 <> [] ->
  exists primary legacy : whisper_full_params full_params_rest,
    full_calls (trace (snd (fullTranscribe contextPtr numThreads audioData w1)))
    = full_calls (trace w1)
      ++ [EvFull contextPtr primary samples (Z.of_nat (length samples))]
    /\ full_calls (trace (snd (nativeTranscribe audioPath modelPath w2)))
       = full_calls (trace w2)
         ++ [EvFull (fst loaded) legacy pcmf32 (int_of_size_t (Z.of_nat (length pcmf32)))]
    /\ n_threads primary = numThreads
    /\ n_threads legacy = 4
    /\ print_progress primary = false /\ print_progress legacy = false
    /\ print_special primary = false /\ print_special legacy = false
    /\ print_realtime primary = false /\ print_realtime legacy = false
    /\ print_timestamps primary = false /\ print_timestamps legacy = false
    /\ translate primary = false /\ translate legacy = false
    /\ language primary = Some (lit "en") /\ language legacy = Some (lit "en")
    /\ offset_ms primary = 0 /\ offset_ms legacy = 0
    /\ duration_ms primary = 0 /\ duration_ms legacy = 0
    /\ single_segment primary = false /\ single_segment legacy = false
    /\ max_tokens primary = 0 /\ max_tokens legacy = 0
    /\ audio_ctx primary = 0 /\ audio_ctx legacy = 0
    /\ other_fields primary = other_fields defaults
    /\ other_fields legacy = other_fields defaults
    /\ legacy
       = mk_full_params (print_progress primary) (print_special primary)
           (print_realtime primary) (print_timestamps primary) (translate primary)
           (language primary) 4 (offset_ms primary) (duration_ms primary)
           (single_segment primary) (max_tokens primary) (audio_ctx primary)
           (other_fields primary).
Proof.
  cbv zeta.
  destruct (whisper_init_from_file_with_params _ _ _) as [ctx m1] eqn:Hinit.
  cbn [fst]. intros Hctx Harr Hloaded Hpcm.
  exists (fullTranscribe_wparams numThreads), nativeTranscribe_wparams.
  split; [exact (fullTranscribe_full_call w1 _ _ _ samples Hctx Harr)|].
  split; [exact (nativeTranscribe_full_call w2 audioPath modelPath ctx m1
                   Hinit Hloaded Hpcm)|].
  repeat split.
Qed.

End BridgeExtras.

(* ===================================================================== *)
(** ** More on the inbound conversion *)
(* ===================================================================== *)

(** Decoding undoes the encoding of a well-formed string, U+0000
    included. *)
Lemma decode_utf_getBytes_UTF8 (s : java_string) :
  well_formed_utf16 s = true -> decode_utf (getBytes_UTF8 s) = s.
Proof.
  assert (H : forall (n : nat) (l : java_string),
             (length l < n)%nat -> well_formed_utf16 l = true ->
             decode_utf (getBytes_UTF8 l) = l).
  { induction n as [|n IH]; intros l Hlen Hwf; [lia|].
    destruct l as [|u rest]; [reflexivity|].
    cbn [well_formed_utf16] in Hwf.
    apply andb_true_iff in Hwf as [Hrange Hwf].
    apply andb_true_iff in Hrange as [Hge Hlt].
    apply Z.leb_le in Hge. apply Z.ltb_lt in Hlt.
    destruct (surrogate_bounds u) as [Hhigh _].
    cbn [getBytes_UTF8].
    destruct (is_high_surrogate u) eqn:Ehigh.
    - destruct rest as [|v rest']; [discriminate|].
      apply andb_true_iff in Hwf as [Hv Hwf]. rewrite Hv.
      destruct (surrogate_bounds v) as [_ Hvlow]. apply Hvlow in Hv.
      rewrite decode_utf_of_pair; [|apply Hhigh; reflexivity | exact Hv].
      rewrite IH; [reflexivity | cbn [length] in Hlen; lia | exact Hwf].
    - apply andb_true_iff in Hwf as [Hnotlow Hwf].
      apply negb_true_iff in Hnotlow. rewrite Hnotlow.
      rewrite decode_utf_of_code_point by lia.
      rewrite IH; [reflexivity | cbn [length] in Hlen; lia | exact Hwf]. }
  apply (H (S (length s))). lia.
Qed.

(** The bytes of a well-formed string followed by another string are the
    bytes of the one followed by the bytes of the other. *)
Lemma getBytes_UTF8_app (s t : java_string) :
  well_formed_utf16 s = true ->
  getBytes_UTF8 (s ++ t) = getBytes_UTF8 s ++ getBytes_UTF8 t.
Proof.
  assert (H : forall (n : nat) (l : java_string),
             (length l < n)%nat -> well_formed_utf16 l = true ->
             getBytes_UTF8 (l ++ t) = getBytes_UTF8 l ++ getBytes_UTF8 t).
  { induction n as [|n IH]; intros l Hlen Hwf; [lia|].
    destruct l as [|u rest]; [reflexivity|].
    cbn [well_formed_utf16] in Hwf.
    apply andb_true_iff in Hwf as [_ Hwf].
    cbn [app getBytes_UTF8].
    destruct (is_high_surrogate u) eqn:Ehigh.
    - destruct rest as [|v rest']; [discriminate|].
      apply andb_true_iff in Hwf as [Hv Hwf]. cbn [app]. rewrite Hv.
      rewrite IH; [apply app_assoc | cbn [length] in Hlen; lia | exact Hwf].
    - apply andb_true_iff in Hwf as [Hnotlow Hwf].
      apply negb_true_iff in Hnotlow. rewrite Hnotlow.
      rewrite IH; [apply app_assoc | cbn [length] in Hlen; lia | exact Hwf]. }
  apply (H (S (length s))). lia.
Qed.

Lemma c_str_app_nul (a b : list byte) :
  c_str a = a -> c_str (a ++ x00 :: b) = a.
Proof.
  induction a as [|x a IH]; intros Ha; [reflexivity|].
  cbn [c_str app] in *. destruct (is_nul x); [discriminate|].
  injection Ha as Ha. rewrite IH by exact Ha. reflexivity.
Qed.

Section StringExtras.

Context {engine : WhisperEngine} {runtime : AndroidRuntime}.

(** X15.  The inbound conversion loses nothing of a well-formed string: two
    well-formed Java strings with the same bytes are the same string. *)
Theorem jstring2string_injective (s t : java_string) :
  well_formed_utf16 s = true ->
  well_formed_utf16 t = true ->
  jstring2string (Some s) = jstring2string (Some t) ->
  s = t.
Proof.
  intros Hs Ht Heq. rewrite !jstring2string_is_utf8 in Heq.
  rewrite <- (decode_utf_getBytes_UTF8 s Hs), <- (decode_utf_getBytes_UTF8 t Ht).
  rewrite Heq. reflexivity.
Qed.

Lemma c_str_path_nul (s t : java_string) :
  well_formed_utf16 s = true ->
  has_nul_char s = false ->
  c_str (jstring2string (Some (s ++ 0 :: t))) = c_str (jstring2string (Some s)).
Proof.
  intros Hwf Hnul. rewrite !jstring2string_is_utf8.
  rewrite getBytes_UTF8_app by exact Hwf.
  destruct (getBytes_UTF8_decodes s Hwf Hnul) as [Hc _].
  change (getBytes_UTF8 (0 :: t)) with (x00 :: getBytes_UTF8 t).
  rewrite c_str_app_nul by exact Hc. symmetry. exact Hc.
Qed.

(** X2.  A path is used as a C string: what follows a U+0000 character in a
    path is ignored.  Context creation from a file or from an asset and
    the legacy transcription behave on such a path exactly as on the part
    before the U+0000, down to the log. *)
Theorem paths_end_at_nul (w : World) (s t a b : java_string) (assetManager : Z) :
  well_formed_utf16 s = true -> has_nul_char s = false ->
  well_formed_utf16 a = true -> has_nul_char a = false ->
  initContext (Some (s ++ 0 :: t)) w = initContext (Some s) w
  /\ initContextFromAsset assetManager (Some (s ++ 0 :: t)) w
     = initContextFromAsset assetManager (Some s) w
  /\ nativeTranscribe (Some (a ++ 0 :: b)) (Some (s ++ 0 :: t)) w
     = nativeTranscribe (Some a) (Some s) w.
Proof.
  intros Hs Hsn Ha Han.
  pose proof (c_str_path_nul s t Hs Hsn) as Hmodel.
  pose proof (c_str_path_nul a b Ha Han) as Haudio.
  split; [|split].
  - unfold Java_com_memexos_app_whisper_WhisperService_initContext.
    cbv zeta. rewrite !Hmodel. reflexivity.
  - unfold Java_com_memexos_app_whisper_WhisperService_initContextFromAsset.
    cbv zeta. rewrite !Hmodel. reflexivity.
  - unfold Java_com_example_memexos_WhisperWrapper_nativeTranscribe, read_wav.
    cbv zeta. rewrite !Hmodel, !Haudio. reflexivity.
Qed.

End StringExtras.

(* ===================================================================== *)
(** ** The further properties at work *)
(* ===================================================================== *)

(** The speech file and a file with the same samples behind a header of
    zeros. *)
Lemma read_wav_ignores_header_witness :
  fst (read_wav (lit "/sdcard/speech.wav") world0)
  = fst (read_wav (lit "zeros.wav")
           (mk_world (engine_mem world0)
              (fun _ => Some (repeat x00 44 ++ [x01; x00; x00; x80; xff; x7f; x2a]))
              (jheap world0) [] [])).
Proof.
  destruct (read_wav_ignores_header world0
              (mk_world (engine_mem world0)
                 (fun _ => Some (repeat x00 44 ++ [x01; x00; x00; x80; xff; x7f; x2a]))
                 (jheap world0) [] [])
              (lit "/sdcard/speech.wav") (lit "zeros.wav")
              header (repeat x00 44) [x01; x00; x00; x80; xff; x7f; x2a])
    as [Hsame _].
  - reflexivity.
  - reflexivity.
  - vm_compute. reflexivity.
  - reflexivity.
  - exact Hsame.
Defined.

(** One more sample after the one-sample file. *)
Lemma pcm_of_file_app_witness :
  pcm_of_file (click_wav ++ [x01; x00]) = pcm_of_file click_wav ++ fread_loop [x01; x00].
Proof.
  destruct (pcm_of_file_app click_wav [x01; x00]) as [Happ _].
  - vm_compute. lia.
  - exists 1%nat. reflexivity.
  - exact Happ.
Defined.

(** The samples 1, -32768 and 32767 written after a header and read
    back. *)
Lemma read_wav_of_written_samples_witness :
  fst (read_wav (lit "written.wav")
         (mk_world (engine_mem world0)
            (fun _ => Some (header ++ List.flat_map int16_to_bytes [1; -32768; 32767]))
            (jheap world0) [] []))
  = Some (map normalise [1; -32768; 32767]).
Proof.
  apply (read_wav_of_written_samples _ (lit "written.wav") header [1; -32768; 32767]).
  - reflexivity.
  - repeat constructor; lia.
  - reflexivity.
Defined.

(** Two segments after transcribing the three samples of array 50. *)
Lemma fullTranscribe_then_queries_witness :
  fst (getTextSegmentCount 4096 (after (fullTranscribe 4096 4 50) world1)) = Some 2.
Proof.
  destruct (fullTranscribe_then_queries world1 4096 4 50 0 samples0)
    as (_ & _ & Hcount & _).
  - discriminate.
  - vm_compute. reflexivity.
  - rewrite Hcount. vm_compute. reflexivity.
Defined.

(** One transcription of the speech file. *)
Lemma nativeTranscribe_transcribes_once_witness :
  length (full_calls (trace (snd (nativeTranscribe (java "/sdcard/speech.wav")
                                    (java "/data/ggml-tiny.bin") world0))))
  = 1%nat.
Proof.
  destruct (nativeTranscribe_transcribes_once world0
              (java "/sdcard/speech.wav") (java "/data/ggml-tiny.bin")) as [Honce _].
  - vm_compute. discriminate.
  - vm_compute. discriminate.
  - rewrite Honce. reflexivity.
Defined.

(** The engine that hears nothing: the transcript is empty. *)
Lemma nativeTranscribe_no_segments_witness :
  fst (@Java_com_example_memexos_WhisperWrapper_nativeTranscribe Silence.engine runtime
         (java "/sdcard/speech.wav") (java "/data/ggml-tiny.bin") Silence.world0)
  = Some [].
Proof.
  destruct (@nativeTranscribe_no_segments Silence.engine runtime Silence.world0
              (java "/sdcard/speech.wav") (java "/data/ggml-tiny.bin")) as (Hempty & _).
  - vm_compute. discriminate.
  - vm_compute. discriminate.
  - vm_compute. reflexivity.
  - vm_compute. discriminate.
  - exact Hempty.
Defined.

(** The release on the success path, with what precedes and follows. *)
Lemma nativeTranscribe_release_is_last_witness :
  exists before following : list Event,
    trace (snd (nativeTranscribe (java "/sdcard/speech.wav")
                  (java "/data/ggml-tiny.bin") world0))
    = trace world0 ++ before ++ EvFree 4096 :: following
    /\ free_calls before = []
    /\ engine_calls following = [].
Proof.
  apply (nativeTranscribe_release_is_last world0
           (java "/sdcard/speech.wav") (java "/data/ggml-tiny.bin")).
  - vm_compute. discriminate.
  - vm_compute. eexists. reflexivity.
Defined.

(** The model asset gives the engine's handle; an asset that is not
    there gives the zero handle. *)
Lemma initContextFromAsset_handle_witness :
  (exists data : list byte,
      AAsset_getBuffer 200 = Some data
      /\ 4096 = fst (whisper_init_from_buffer_with_params data 8
                       whisper_context_default_params (engine_mem world0)))
  /\ fst (initContextFromAsset 7 (java "models/absent.bin") world0) = Some 0.
Proof.
  split.
  - destruct (initContextFromAsset_handle world0 7 (java "models/ggml-tiny.bin"))
      as (_ & Hhandle & _).
    destruct (Hhandle 4096) as (_ & _ & _ & data & Hdata & Hctx).
    + vm_compute. reflexivity.
    + discriminate.
    + exists data. split; [exact Hdata | exact Hctx].
  - destruct (initContextFromAsset_handle world0 7 (java "models/absent.bin"))
      as (_ & _ & Hnone).
    destruct Hnone as (Hzero & _).
    + right. left. vm_compute. reflexivity.
    + exact Hzero.
Defined.

(** A string with an emoji is told from its own bytes. *)
Lemma jstring2string_injective_witness :
  [0x48; 0xD83D; 0xDE00] = [0x48; 0xD83D; 0xDE00].
Proof.
  apply (jstring2string_injective [0x48; 0xD83D; 0xDE00] [0x48; 0xD83D; 0xDE00]).
  - vm_compute. reflexivity.
  - vm_compute. reflexivity.
  - reflexivity.
Defined.

(** The model path with ".bak" behind a U+0000 loads the model. *)
Lemma paths_end_at_nul_witness :
  fst (initContext
         (Some (map byte_to_Z (lit "/data/ggml-tiny.bin") ++ 0 :: map byte_to_Z (lit ".bak")))
         world0)
  = Some 4096.
Proof.
  destruct (paths_end_at_nul world0
              (map byte_to_Z (lit "/data/ggml-tiny.bin")) (map byte_to_Z (lit ".bak"))
              (map byte_to_Z (lit "/sdcard/speech.wav")) [] 7) as (Hinit & _).
  - vm_compute. reflexivity.
  - vm_compute. reflexivity.
  - vm_compute. reflexivity.
  - vm_compute. reflexivity.
  - transitivity (fst (initContext (Some (map byte_to_Z (lit "/data/ggml-tiny.bin")))
                         world0)).
    + exact (f_equal fst Hinit).
    + vm_compute. reflexivity.
Defined.

(** Seven threads asked of the primary entry point, four used by the
    legacy one. *)
Lemma entry_points_wparams_agree_witness :
  exists primary legacy : whisper_full_params full_params_rest,
    full_calls (trace (snd (fullTranscribe 4096 7 50 world1)))
    = full_calls (trace world1) ++ [EvFull 4096 primary samples0 3]
    /\ length (full_calls (trace (snd (nativeTranscribe (java "/sdcard/speech.wav")
                                          (java "/data/ggml-tiny.bin") world0))))
       = 1%nat
    /\ n_threads primary = 7
    /\ n_threads legacy = 4.
Proof.
  destruct (entry_points_wparams_agree world1 world0 4096 7 50 samples0
              (java "/sdcard/speech.wav") (java "/data/ggml-tiny.bin"))
    as (primary & legacy & Hprimary & Hlegacy & Hthreads & Hfour & _).
  - discriminate.
  - vm_compute. reflexivity.
  - vm_compute. discriminate.
  - vm_compute. discriminate.
  - exists primary, legacy.
    split; [exact Hprimary|]. split; [rewrite Hlegacy; reflexivity|].
    split; [exact Hthreads | exact Hfour].
Defined.
